(** * gst-sync-server: the synchronising playback client

    A shallow embedding of [gst-libs/gst/sync-server/sync-client.c].

    The client object ([GstSyncClient]) is threaded explicitly through every
    routine.  Every call the client makes on a collaborator (the pipeline, its
    bus, the network clock, the control client, the logger, the mutex and the
    atomic [seek_state] cell) is appended to a call log, in program order, so
    that ordering properties can be read off the log.  What the collaborators
    answer (state-change results, whether a seek is accepted, the position
    query, the clock reading) is supplied by an [Oracle]. *)

From Stdlib Require Import ZArith List String Bool Lia.
Import ListNotations.
Local Open Scope Z_scope.

(** ** Clock times: [GstClockTime] is [guint64] *)

Definition wrap64 (z : Z) : Z := z mod 2 ^ 64.

(** [a - b] and [a + b] on [guint64]. *)
Definition sub64 (a b : Z) : Z := wrap64 (a - b).
Definition add64 (a b : Z) : Z := wrap64 (a + b).

(** The [gint64] a [guint64] value converts to when it is passed for a
    [gint64] parameter: values from [2^63] on come out negative. *)
Definition to_gint64 (z : Z) : Z :=
  if wrap64 z <? 2 ^ 63 then wrap64 z else wrap64 z - 2 ^ 64.

(** [((GstClockTime) -1)] *)
Definition GST_CLOCK_TIME_NONE : Z := wrap64 (-1).
Definition GST_SECOND : Z := 1000000000.
Definition GST_MSECOND : Z := GST_SECOND / 1000.

Definition DEFAULT_PORT : Z := 0.
Definition DEFAULT_SEEK_TOLERANCE : Z := wrap64 (50 * GST_MSECOND).

(** [GstSeekFlags] bits and [GstFormat]. *)
Definition GST_SEEK_FLAG_FLUSH : Z := Z.shiftl 1 0.
Definition GST_SEEK_FLAG_ACCURATE : Z := Z.shiftl 1 1.

Inductive GstFormat := GST_FORMAT_TIME.

(** ** Enumerations *)

(** The anonymous enum of the client: the value of [seek_state]. *)
Inductive SeekState := NEED_SEEK | IN_SEEK | DONE_SEEK.

Inductive GstState :=
| GST_STATE_VOID_PENDING
| GST_STATE_NULL
| GST_STATE_READY
| GST_STATE_PAUSED
| GST_STATE_PLAYING.

Inductive GstStateChangeReturn :=
| GST_STATE_CHANGE_FAILURE
| GST_STATE_CHANGE_SUCCESS
| GST_STATE_CHANGE_ASYNC
| GST_STATE_CHANGE_NO_PREROLL.

Inductive GstMessageType :=
| GST_MESSAGE_ELEMENT
| GST_MESSAGE_STATE_CHANGED
| GST_MESSAGE_ASYNC_DONE
| GST_MESSAGE_EOS
| GST_MESSAGE_OTHER (type_name : string).

Definition SeekState_eqb (a b : SeekState) : bool :=
  match a, b with
  | NEED_SEEK, NEED_SEEK | IN_SEEK, IN_SEEK | DONE_SEEK, DONE_SEEK => true
  | _, _ => false
  end.

Definition GstState_eqb (a b : GstState) : bool :=
  match a, b with
  | GST_STATE_VOID_PENDING, GST_STATE_VOID_PENDING
  | GST_STATE_NULL, GST_STATE_NULL
  | GST_STATE_READY, GST_STATE_READY
  | GST_STATE_PAUSED, GST_STATE_PAUSED
  | GST_STATE_PLAYING, GST_STATE_PLAYING => true
  | _, _ => false
  end.

(** Pointer comparison of two [GstObject*]; [None] is [NULL]. *)
Definition ptr_eqb (a b : option N) : bool :=
  match a, b with
  | None, None => true
  | Some x, Some y => N.eqb x y
  | _, _ => false
  end.

(** ** Data *)

(** The sync descriptor pushed by the control server. *)
Record GstSyncServerInfo := {
  uri : string;
  base_time : Z;
  latency : Z;
  clock_addr : string;
  clock_port : Z
}.

Inductive Callback := Cb_bus_cb | Cb_sync_info_notify.

(** The part of a [GstBus] the client acts on: the (single) asynchronous
    watch, the sync-message emission count, and the handlers connected to
    detailed [sync-message::<kind>] signals. *)
Record GstBus := {
  bus_watch : option Callback;
  bus_sync_emission : nat;
  bus_sync_handlers : list (string * Callback)
}.

(** The network client clock created on the first descriptor. *)
Record GstClock := {
  clk_name : string;
  clk_address : string;
  clk_port : Z;
  clk_bus : bool
}.

(** The part of the application's [GstPipeline] the client acts on;
    [p_use_clock] records that [gst_pipeline_use_clock] fixed the pipeline's
    clock to the client's network clock. *)
Record GstPipeline := {
  p_id : N;
  p_uri : option string;
  p_latency : Z;
  p_start_time : Z;
  p_base_time : Z;
  p_use_clock : bool;
  p_bus : GstBus
}.

(** The TCP control client created by [gst_sync_client_start]. *)
Record GstSyncTcpControlClient := {
  cc_address : option string;
  cc_port : Z;
  cc_notify_sync_info : list Callback
}.

Record GstSyncClient := {
  control_addr : option string;
  control_port : Z;
  info : option GstSyncServerInfo;
  pipeline : option GstPipeline;
  clock : option GstClock;
  client : option GstSyncTcpControlClient;
  synchronised : bool;
  seek_state : SeekState
}.

(** Bus messages, with the payload [bus_cb] reads.  An element message
    carries its structure, if any: the structure name and its boolean field
    ["synchronised"], if present. *)
Inductive GstMessage :=
| MsgElement (src : option N) (st : option (string * option bool))
| MsgStateChanged (src : option N) (old_state new_state pending : GstState)
| MsgAsyncDone (src : option N)
| MsgEos (src : option N)
| MsgOther (src : option N) (type_name : string).

Definition GST_MESSAGE_TYPE (m : GstMessage) : GstMessageType :=
  match m with
  | MsgElement _ _ => GST_MESSAGE_ELEMENT
  | MsgStateChanged _ _ _ _ => GST_MESSAGE_STATE_CHANGED
  | MsgAsyncDone _ => GST_MESSAGE_ASYNC_DONE
  | MsgEos _ => GST_MESSAGE_EOS
  | MsgOther _ n => GST_MESSAGE_OTHER n
  end.

Definition GST_MESSAGE_SRC (m : GstMessage) : option N :=
  match m with
  | MsgElement s _ | MsgStateChanged s _ _ _ | MsgAsyncDone s | MsgEos s
  | MsgOther s _ => s
  end.

(** ** Calls on the collaborators *)

Inductive LogLevel := LOG_ERROR | LOG_WARNING | LOG_INFO | LOG_DEBUG.

Inductive Handle := H_pipeline | H_clock | H_bus | H_client.

Inductive Call :=
| MutexLock
| MutexUnlock
| MutexClear
| AtomicIntSet (s : SeekState)
| ObjectSetUri (u : string)
| PipelineSetLatency (l : Z)
| ElementSetState (s : GstState)
| ElementSetStartTime (t : Z)
| ElementSetBaseTime (t : Z)
| ElementSeekSimple (f : GstFormat) (flags : Z) (seek_pos : Z)
| ElementQueryPosition (f : GstFormat)
| ClockGetTime
| ClockWaitForSync (timeout : Z)
| NetClientClockNew (name address : string) (port : Z)
| PipelineUseClock
| PipelineGetBus
| ObjectSetBus
| BusAddWatch (cb : Callback)
| BusEnableSyncMessageEmission
| SignalConnect (on : Handle) (detailed_signal : string) (cb : Callback)
| SignalEmitByName (on : Handle) (signal : string)
| ObjectNew (address : option string) (port : Z)
| ObjectUnref (h : Handle)
| Free
| SyncServerInfoFree (i : GstSyncServerInfo)
| ParentDispose
| Critical (where_ : string)
| Log (lvl : LogLevel) (fmt : string).

(** ** What the collaborators answer *)

Record Oracle := {
  (** result of [gst_element_set_state] for each requested state *)
  set_state_return : GstState -> GstStateChangeReturn;
  (** whether [gst_element_seek_simple] accepts the seek, by the 64 bits
      passed for its position *)
  seek_simple_return : Z -> bool;
  (** [gst_element_query_position]: the position, or [None] when it fails *)
  query_position_return : option Z;
  (** [gst_clock_get_time] *)
  clock_time : Z;
  (** [gst_clock_wait_for_sync] *)
  wait_for_sync_return : bool;
  (** result of the control client's ["start"] action signal *)
  control_start_return : bool;
  (** what the local [is_live] of [update_pipeline] holds before any
      assignment: the variable is declared without an initialiser *)
  is_live_indeterminate : bool
}.

(** ** The state-and-log monad of the client *)

Inductive fault := NullInfo | NullPipeline | NullClock.

Inductive outcome (A : Type) :=
| Fault (f : fault)
| Ret (a : A) (self : GstSyncClient) (calls : list Call).

Arguments Fault {A} f.
Arguments Ret {A} a self calls.

Definition M (A : Type) : Type := GstSyncClient -> outcome A.

Definition ret {A} (a : A) : M A := fun self => Ret a self [].

Definition bind {A B} (m : M A) (k : A -> M B) : M B :=
  fun self =>
    match m self with
    | Fault f => Fault f
    | Ret a self1 calls1 =>
        match k a self1 with
        | Fault f => Fault f
        | Ret b self2 calls2 => Ret b self2 (calls1 ++ calls2)
        end
    end.

Definition fail {A} (f : fault) : M A := fun _ => Fault f.
Definition call (c : Call) : M unit := fun self => Ret tt self [c].
Definition read {A} (f : GstSyncClient -> A) : M A := fun self => Ret (f self) self [].
Definition modify (f : GstSyncClient -> GstSyncClient) : M unit :=
  fun self => Ret tt (f self) [].

Declare Scope client_scope.
Delimit Scope client_scope with client.
Notation "x <- m ;; k" := (bind m (fun x => k))
  (at level 61, m at next level, right associativity) : client_scope.
Notation "m ;; k" := (bind m (fun _ => k))
  (at level 61, right associativity) : client_scope.
Local Open Scope client_scope.

(** ** Field updates *)

Definition set_control_addr (v : option string) (s : GstSyncClient) :=
  {| control_addr := v; control_port := control_port s; info := info s;
     pipeline := pipeline s; clock := clock s; client := client s;
     synchronised := synchronised s; seek_state := seek_state s |}.

Definition set_control_port (v : Z) (s : GstSyncClient) :=
  {| control_addr := control_addr s; control_port := v; info := info s;
     pipeline := pipeline s; clock := clock s; client := client s;
     synchronised := synchronised s; seek_state := seek_state s |}.

Definition set_info (v : option GstSyncServerInfo) (s : GstSyncClient) :=
  {| control_addr := control_addr s; control_port := control_port s; info := v;
     pipeline := pipeline s; clock := clock s; client := client s;
     synchronised := synchronised s; seek_state := seek_state s |}.

Definition set_pipeline (v : option GstPipeline) (s : GstSyncClient) :=
  {| control_addr := control_addr s; control_port := control_port s;
     info := info s; pipeline := v; clock := clock s; client := client s;
     synchronised := synchronised s; seek_state := seek_state s |}.

Definition set_clock (v : option GstClock) (s : GstSyncClient) :=
  {| control_addr := control_addr s; control_port := control_port s;
     info := info s; pipeline := pipeline s; clock := v; client := client s;
     synchronised := synchronised s; seek_state := seek_state s |}.

Definition set_client (v : option GstSyncTcpControlClient) (s : GstSyncClient) :=
  {| control_addr := control_addr s; control_port := control_port s;
     info := info s; pipeline := pipeline s; clock := clock s; client := v;
     synchronised := synchronised s; seek_state := seek_state s |}.

Definition set_synchronised (v : bool) (s : GstSyncClient) :=
  {| control_addr := control_addr s; control_port := control_port s;
     info := info s; pipeline := pipeline s; clock := clock s;
     client := client s; synchronised := v; seek_state := seek_state s |}.

Definition set_seek_state (v : SeekState) (s : GstSyncClient) :=
  {| control_addr := control_addr s; control_port := control_port s;
     info := info s; pipeline := pipeline s; clock := clock s;
     client := client s; synchronised := synchronised s; seek_state := v |}.

Definition with_uri (v : option string) (p : GstPipeline) :=
  {| p_id := p_id p; p_uri := v; p_latency := p_latency p;
     p_start_time := p_start_time p; p_base_time := p_base_time p;
     p_use_clock := p_use_clock p; p_bus := p_bus p |}.

Definition with_latency (v : Z) (p : GstPipeline) :=
  {| p_id := p_id p; p_uri := p_uri p; p_latency := v;
     p_start_time := p_start_time p; p_base_time := p_base_time p;
     p_use_clock := p_use_clock p; p_bus := p_bus p |}.

Definition with_start_time (v : Z) (p : GstPipeline) :=
  {| p_id := p_id p; p_uri := p_uri p; p_latency := p_latency p;
     p_start_time := v; p_base_time := p_base_time p;
     p_use_clock := p_use_clock p; p_bus := p_bus p |}.

Definition with_base_time (v : Z) (p : GstPipeline) :=
  {| p_id := p_id p; p_uri := p_uri p; p_latency := p_latency p;
     p_start_time := p_start_time p; p_base_time := v;
     p_use_clock := p_use_clock p; p_bus := p_bus p |}.

Definition with_use_clock (v : bool) (p : GstPipeline) :=
  {| p_id := p_id p; p_uri := p_uri p; p_latency := p_latency p;
     p_start_time := p_start_time p; p_base_time := p_base_time p;
     p_use_clock := v; p_bus := p_bus p |}.

Definition with_bus (v : GstBus) (p : GstPipeline) :=
  {| p_id := p_id p; p_uri := p_uri p; p_latency := p_latency p;
     p_start_time := p_start_time p; p_base_time := p_base_time p;
     p_use_clock := p_use_clock p; p_bus := v |}.

(** ** Primitive operations *)

(** [self->info], dereferenced. *)
Definition the_info : M GstSyncServerInfo :=
  fun self =>
    match info self with
    | Some i => Ret i self []
    | None => Fault NullInfo
    end.

(** A call on [self->pipeline] that updates the pipeline and is logged. *)
Definition on_pipeline (c : Call) (f : GstPipeline -> GstPipeline) : M unit :=
  fun self =>
    match pipeline self with
    | Some p => Ret tt (set_pipeline (Some (f p)) self) [c]
    | None => Fault NullPipeline
    end.

Definition g_atomic_int_set (s : SeekState) : M unit :=
  call (AtomicIntSet s) ;; modify (set_seek_state s).

Definition g_atomic_int_get : M SeekState := read seek_state.

Definition g_mutex_lock : M unit := call MutexLock.
Definition g_mutex_unlock : M unit := call MutexUnlock.

Section Client.

Variable env : Oracle.

Definition gst_element_set_state (s : GstState) : M GstStateChangeReturn :=
  on_pipeline (ElementSetState s) (fun p => p) ;; ret (set_state_return env s).

(** [pos] is the [guint64] value of the argument expression; the parameter
    [seek_pos] is a [gint64], so the pipeline receives [to_gint64 pos]. *)
Definition gst_element_seek_simple (f : GstFormat) (flags pos : Z) : M bool :=
  on_pipeline (ElementSeekSimple f flags (to_gint64 pos)) (fun p => p) ;;
  ret (seek_simple_return env pos).

Definition gst_element_query_position (f : GstFormat) : M (option Z) :=
  on_pipeline (ElementQueryPosition f) (fun p => p) ;;
  ret (query_position_return env).

Definition gst_clock_get_time : M Z :=
  fun self =>
    match clock self with
    | Some _ => Ret (wrap64 (clock_time env)) self [ClockGetTime]
    | None => Fault NullClock
    end.

Definition gst_clock_wait_for_sync (timeout : Z) : M bool :=
  fun self =>
    match clock self with
    | Some _ => Ret (wait_for_sync_return env) self [ClockWaitForSync timeout]
    | None => Fault NullClock
    end.

(** *** [set_base_time] *)

Definition set_base_time (base_time : Z) : M unit :=
  on_pipeline (ElementSetStartTime GST_CLOCK_TIME_NONE)
              (with_start_time GST_CLOCK_TIME_NONE) ;;
  on_pipeline (ElementSetBaseTime base_time) (with_base_time base_time).

(** *** [update_pipeline] (called with [info_lock] held) *)

Definition update_pipeline : M unit :=
  i <- the_info ;;
  on_pipeline (ObjectSetUri (uri i)) (with_uri (Some (uri i))) ;;
  on_pipeline (PipelineSetLatency (latency i)) (with_latency (latency i)) ;;
  r <- gst_element_set_state GST_STATE_PAUSED ;;
  is_live <-
    match r with
    | GST_STATE_CHANGE_FAILURE =>
        call (Log LOG_WARNING "Could not play uri: %s") ;;
        ret (is_live_indeterminate env)
    | GST_STATE_CHANGE_NO_PREROLL =>
        call (Log LOG_DEBUG "Detected live pipeline") ;;
        ret true
    | _ => ret false
    end ;;
  g_atomic_int_set (if is_live : bool then DONE_SEEK else NEED_SEEK) ;;
  gst_element_set_state GST_STATE_PLAYING ;;
  ret tt.

(** *** [bus_cb] *)

Definition gst_structure_has_name (st : option (string * option bool))
  (name : string) : bool :=
  match st with
  | Some (n, _) => String.eqb n name
  | None => false
  end.

(** [gst_structure_get_boolean (st, "synchronised", &self->synchronised)]:
    the flag is written only when the field is present. *)
Definition gst_structure_get_boolean_synchronised
  (st : option (string * option bool)) : M unit :=
  match st with
  | Some (_, Some b) => modify (set_synchronised b)
  | _ => ret tt
  end.

Definition bus_cb (message : GstMessage) : M bool :=
  match message with
  | MsgElement _ st =>
      s <- read synchronised ;;
      if s : bool then ret true else
      if negb (gst_structure_has_name st "gst-netclock-statistics")
      then ret true else
      gst_structure_get_boolean_synchronised st ;;
      s <- read synchronised ;;
      if negb s then ret true else
      ok <- gst_clock_wait_for_sync (10 * GST_SECOND) ;;
      if negb ok then
        call (Log LOG_ERROR "Could not synchronise clock") ;;
        modify (set_synchronised false) ;;
        ret true
      else
        call (Log LOG_INFO "Clock is synchronised, starting playback") ;;
        g_mutex_lock ;;
        update_pipeline ;;
        g_mutex_unlock ;;
        ret true
  | MsgStateChanged src old_state new_state _ =>
      s <- g_atomic_int_get ;;
      p <- read pipeline ;;
      if negb (SeekState_eqb s NEED_SEEK)
         || negb (ptr_eqb src (option_map p_id p))
      then ret true else
      if negb (GstState_eqb old_state GST_STATE_PAUSED)
         && negb (GstState_eqb new_state GST_STATE_PLAYING)
      then ret true else
      now <- gst_clock_get_time ;;
      g_atomic_int_set IN_SEEK ;;
      g_mutex_lock ;;
      i <- the_info ;;
      (if sub64 now (base_time i) >? DEFAULT_SEEK_TOLERANCE then
         call (Log LOG_INFO "Seeking: %lu") ;;
         ok <- gst_element_seek_simple GST_FORMAT_TIME
                 (Z.lor GST_SEEK_FLAG_ACCURATE GST_SEEK_FLAG_FLUSH)
                 (add64 (sub64 now (base_time i)) DEFAULT_SEEK_TOLERANCE) ;;
         if negb ok then
           call (Log LOG_WARNING "Could not perform seek") ;;
           set_base_time (base_time i) ;;
           g_atomic_int_set DONE_SEEK
         else ret tt
       else
         set_base_time (base_time i) ;;
         g_atomic_int_set DONE_SEEK) ;;
      g_mutex_unlock ;;
      ret true
  | MsgAsyncDone _ =>
      s <- g_atomic_int_get ;;
      if negb (SeekState_eqb s IN_SEEK) then ret true else
      q <- gst_element_query_position GST_FORMAT_TIME ;;
      match q with
      | Some pos =>
          call (Log LOG_INFO "Adding offset: %lu") ;;
          g_mutex_lock ;;
          i <- the_info ;;
          set_base_time (add64 (base_time i) pos) ;;
          g_mutex_unlock
      | None => ret tt
      end ;;
      g_atomic_int_set DONE_SEEK ;;
      ret true
  | MsgEos src =>
      p <- read pipeline ;;
      (if ptr_eqb src (option_map p_id p)
       then gst_element_set_state GST_STATE_NULL ;; ret tt
       else ret tt) ;;
      ret true
  | MsgOther _ _ => ret true
  end.

(** *** [update_sync_info] *)

Definition bus_add_watch (cb : Callback) (b : GstBus) : GstBus :=
  {| bus_watch := match bus_watch b with Some w => Some w | None => Some cb end;
     bus_sync_emission := bus_sync_emission b;
     bus_sync_handlers := bus_sync_handlers b |}.

Definition bus_enable_sync_message_emission (b : GstBus) : GstBus :=
  {| bus_watch := bus_watch b;
     bus_sync_emission := S (bus_sync_emission b);
     bus_sync_handlers := bus_sync_handlers b |}.

Definition bus_signal_connect (detailed_signal : string) (cb : Callback)
  (b : GstBus) : GstBus :=
  {| bus_watch := bus_watch b;
     bus_sync_emission := bus_sync_emission b;
     bus_sync_handlers := bus_sync_handlers b ++ [(detailed_signal, cb)] |}.

Definition on_bus (f : GstBus -> GstBus) (p : GstPipeline) : GstPipeline :=
  with_bus (f (p_bus p)) p.

Definition gst_net_client_clock_new (name address : string) (port : Z)
  : M GstClock :=
  call (NetClientClockNew name address port) ;;
  ret {| clk_name := name; clk_address := address; clk_port := port;
         clk_bus := false |}.

Definition clock_set_bus (k : GstClock) : GstClock :=
  {| clk_name := clk_name k; clk_address := clk_address k;
     clk_port := clk_port k; clk_bus := true |}.

Definition update_sync_info (new_info : GstSyncServerInfo) : M unit :=
  g_mutex_lock ;;
  cur <- read info ;;
  match cur with
  | None =>
      modify (set_info (Some new_info)) ;;
      i <- the_info ;;
      k <- gst_net_client_clock_new "sync-server-clock" (clock_addr i)
             (clock_port i) ;;
      modify (set_clock (Some k)) ;;
      on_pipeline PipelineUseClock (with_use_clock true) ;;
      on_pipeline PipelineGetBus (fun p => p) ;;
      call ObjectSetBus ;;
      modify (fun s => set_clock (option_map clock_set_bus (clock s)) s) ;;
      on_pipeline (BusAddWatch Cb_bus_cb) (on_bus (bus_add_watch Cb_bus_cb)) ;;
      on_pipeline BusEnableSyncMessageEmission
                  (on_bus bus_enable_sync_message_emission) ;;
      on_pipeline (SignalConnect H_bus "sync-message::async-done" Cb_bus_cb)
                  (on_bus (bus_signal_connect "sync-message::async-done"
                             Cb_bus_cb)) ;;
      call (ObjectUnref H_bus)
  | Some old =>
      if negb (String.eqb (uri old) (uri new_info))
         || negb (base_time old =? base_time new_info)
      then
        gst_element_set_state GST_STATE_NULL ;;
        call (SyncServerInfoFree old) ;;
        modify (set_info (Some new_info)) ;;
        update_pipeline
      else ret tt
  end ;;
  g_mutex_unlock.

(** *** [sync_info_notify]: the descriptor read from the control client is
    handed over to [update_sync_info]. *)

Definition sync_info_notify (new_info : GstSyncServerInfo) : M unit :=
  call (Log LOG_INFO "Got sync information, URI is :%s") ;;
  update_sync_info new_info.

(** *** Construction, start, stop, dispose *)

(** [gst_sync_client_init]; [clock] and [client] are not assigned there and
    hold the zero the instance is allocated with. *)
Definition gst_sync_client_init : GstSyncClient :=
  {| control_addr := None; control_port := DEFAULT_PORT; info := None;
     pipeline := None; clock := None; client := None;
     synchronised := false; seek_state := NEED_SEEK |}.

(** The range [gst_sync_client_class_init] installs the [control-port]
    property with. *)
Definition control_port_minimum : Z := 0.
Definition control_port_maximum : Z := 65535.

Definition control_port_valid (port : Z) : bool :=
  (control_port_minimum <=? port) && (port <=? control_port_maximum).

(** [gst_sync_client_new]: the three construct properties are set on the
    initialised instance.  A port outside the installed range does not pass
    the validation of [g_object_new] and is not set: the port stays as
    [gst_sync_client_init] left it. *)
Definition gst_sync_client_new (addr : option string) (port : Z)
  (p : option GstPipeline) : GstSyncClient :=
  set_pipeline p
    ((if control_port_valid port then set_control_port port else fun s => s)
       (set_control_addr addr gst_sync_client_init)).

Definition control_client_connect (cb : Callback)
  (k : GstSyncTcpControlClient) : GstSyncTcpControlClient :=
  {| cc_address := cc_address k; cc_port := cc_port k;
     cc_notify_sync_info := cc_notify_sync_info k ++ [cb] |}.

Definition gst_sync_client_start : M bool :=
  addr <- read control_addr ;;
  port <- read control_port ;;
  call (ObjectNew addr port) ;;
  modify (set_client (Some {| cc_address := addr; cc_port := port;
                              cc_notify_sync_info := [] |})) ;;
  call (SignalConnect H_client "notify::sync-info" Cb_sync_info_notify) ;;
  modify (fun s => set_client
            (option_map (control_client_connect Cb_sync_info_notify)
               (client s)) s) ;;
  call (SignalEmitByName H_client "start") ;;
  ret (control_start_return env).

(** [gst_sync_client_stop]: one signal emission on [self->client].  With no
    control client ([start] was not called) the emission is refused by the
    instance check of [g_signal_emit_by_name], which only logs. *)
Definition gst_sync_client_stop : M unit :=
  k <- read client ;;
  match k with
  | Some _ => call (SignalEmitByName H_client "stop")
  | None => call (Critical "g_signal_emit_by_name")
  end.


End Client.

(** Bus messages handled one after the other by [bus_cb], each with the
    answers the collaborators give while it is handled. *)
Fixpoint bus_dispatch (evs : list (Oracle * GstMessage)) : M unit :=
  match evs with
  | [] => ret tt
  | (env, m) :: rest => bus_cb env m ;; bus_dispatch rest
  end.

(** ** Delivery of bus messages *)

(** [gst_message_type_get_name] *)
Definition gst_message_type_get_name (t : GstMessageType) : string :=
  match t with
  | GST_MESSAGE_ELEMENT => "element"
  | GST_MESSAGE_STATE_CHANGED => "state-changed"
  | GST_MESSAGE_ASYNC_DONE => "async-done"
  | GST_MESSAGE_EOS => "eos"
  | GST_MESSAGE_OTHER n => n
  end.

(** The handlers a message of kind [t] reaches synchronously, in the thread
    that posts it: those connected to [sync-message] or to
    [sync-message::<kind>], once sync-message emission is enabled. *)
Definition sync_recipients (b : GstBus) (t : GstMessageType) : list Callback :=
  if Nat.ltb 0 (bus_sync_emission b) then
    map snd
      (filter
         (fun h => String.eqb (fst h) "sync-message"
                   || String.eqb (fst h)
                        (String.append "sync-message::"
                           (gst_message_type_get_name t)))
         (bus_sync_handlers b))
  else [].

(** The handler a queued message reaches later, from the main loop. *)
Definition async_recipients (b : GstBus) (t : GstMessageType) : list Callback :=
  match bus_watch b with
  | Some cb => [cb]
  | None => []
  end.

(** ** Readings of the call log *)

Definition is_seek (c : Call) : bool :=
  match c with ElementSeekSimple _ _ _ => true | _ => false end.

Definition is_set_state (s : GstState) (c : Call) : bool :=
  match c with ElementSetState s' => GstState_eqb s s' | _ => false end.

Definition is_atomic_set (c : Call) : bool :=
  match c with AtomicIntSet _ => true | _ => false end.

(** A call on the pipeline or on the clock. *)
Definition is_engine_call (c : Call) : bool :=
  match c with
  | ObjectSetUri _ | PipelineSetLatency _ | ElementSetState _
  | ElementSetStartTime _ | ElementSetBaseTime _ | ElementSeekSimple _ _ _
  | PipelineUseClock | ObjectSetBus | BusAddWatch _
  | BusEnableSyncMessageEmission | SignalConnect H_bus _ _ => true
  | _ => false
  end.

(** [precedes P Q calls]: the first call satisfying [Q] exists and some call
    satisfying [P] is made before it. *)
Fixpoint precedes (P Q : Call -> bool) (calls : list Call) : bool :=
  match calls with
  | [] => false
  | c :: rest =>
      if Q c then false
      else if P c then existsb Q rest
      else precedes P Q rest
  end.

(** ** Quantities of the seek decision *)

(** [now - self->info->base_time], as [bus_cb] computes it. *)
Definition drift (env : Oracle) (i : GstSyncServerInfo) : Z :=
  sub64 (wrap64 (clock_time env)) (base_time i).

(** [now - self->info->base_time + DEFAULT_SEEK_TOLERANCE] *)
Definition seek_position (env : Oracle) (i : GstSyncServerInfo) : Z :=
  add64 (drift env i) DEFAULT_SEEK_TOLERANCE.

(** The position the pipeline receives: that value as a [gint64]. *)
Definition seek_argument (env : Oracle) (i : GstSyncServerInfo) : Z :=
  to_gint64 (seek_position env i).

(** The flags [bus_cb] seeks with. *)
Definition seek_flags : Z := Z.lor GST_SEEK_FLAG_ACCURATE GST_SEEK_FLAG_FLUSH.

Definition has_flag (flags flag : Z) : bool := negb (Z.land flags flag =? 0).

(** The pipeline after [set_base_time t]. *)
Definition rebased (t : Z) (p : GstPipeline) : GstPipeline :=
  with_base_time t (with_start_time GST_CLOCK_TIME_NONE p).

(** The guard of the state-changed case of [bus_cb]: the two tests that
    [break] are both passed. *)
Definition transition1_fires (self : GstSyncClient) (m : GstMessage) : bool :=
  match m with
  | MsgStateChanged src o n _ =>
      SeekState_eqb (seek_state self) NEED_SEEK
      && ptr_eqb src (option_map p_id (pipeline self))
      && negb (negb (GstState_eqb o GST_STATE_PAUSED)
               && negb (GstState_eqb n GST_STATE_PLAYING))
  | _ => false
  end.

(** Messages that neither complete a seek nor can start a new application of
    the descriptor: anything but async-done, and element messages only once
    the client is synchronised (they are then ignored). *)
Definition leaves_seek_pending (sync : bool) (m : GstMessage) : bool :=
  match m with
  | MsgAsyncDone _ => false
  | MsgElement _ _ => sync
  | _ => true
  end.

(** The calls of a firing state-changed handler, by branch. *)
Definition calls_direct (i : GstSyncServerInfo) : list Call :=
  [ClockGetTime; AtomicIntSet IN_SEEK; MutexLock;
   ElementSetStartTime GST_CLOCK_TIME_NONE; ElementSetBaseTime (base_time i);
   AtomicIntSet DONE_SEEK; MutexUnlock].

Definition calls_seek_accepted (env : Oracle) (i : GstSyncServerInfo)
  : list Call :=
  [ClockGetTime; AtomicIntSet IN_SEEK; MutexLock; Log LOG_INFO "Seeking: %lu";
   ElementSeekSimple GST_FORMAT_TIME seek_flags (seek_argument env i);
   MutexUnlock].

Definition calls_seek_rejected (env : Oracle) (i : GstSyncServerInfo)
  : list Call :=
  [ClockGetTime; AtomicIntSet IN_SEEK; MutexLock; Log LOG_INFO "Seeking: %lu";
   ElementSeekSimple GST_FORMAT_TIME seek_flags (seek_argument env i);
   Log LOG_WARNING "Could not perform seek";
   ElementSetStartTime GST_CLOCK_TIME_NONE; ElementSetBaseTime (base_time i);
   AtomicIntSet DONE_SEEK; MutexUnlock].

Definition is_atomic_set_to (s : SeekState) (c : Call) : bool :=
  match c with AtomicIntSet s' => SeekState_eqb s s' | _ => false end.

Definition is_set_base_time (c : Call) : bool :=
  match c with ElementSetBaseTime _ => true | _ => false end.

(** The calls of the async-done handler when the position query answers. *)
Definition calls_async_done (t : Z) : list Call :=
  [ElementQueryPosition GST_FORMAT_TIME; Log LOG_INFO "Adding offset: %lu";
   MutexLock; ElementSetStartTime GST_CLOCK_TIME_NONE; ElementSetBaseTime t;
   MutexUnlock; AtomicIntSet DONE_SEEK].

(** The value [update_pipeline] writes to [seek_state], by the result of the
    PAUSED request. *)
Definition classified (env : Oracle) (r : GstStateChangeReturn) : SeekState :=
  match r with
  | GST_STATE_CHANGE_FAILURE =>
      if is_live_indeterminate env then DONE_SEEK else NEED_SEEK
  | GST_STATE_CHANGE_NO_PREROLL => DONE_SEEK
  | _ => NEED_SEEK
  end.

Definition calls_classify (r : GstStateChangeReturn) : list Call :=
  match r with
  | GST_STATE_CHANGE_FAILURE => [Log LOG_WARNING "Could not play uri: %s"]
  | GST_STATE_CHANGE_NO_PREROLL => [Log LOG_DEBUG "Detected live pipeline"]
  | _ => []
  end.

Definition calls_update_pipeline (env : Oracle) (i : GstSyncServerInfo)
  : list Call :=
  [ObjectSetUri (uri i); PipelineSetLatency (latency i);
   ElementSetState GST_STATE_PAUSED]
  ++ calls_classify (set_state_return env GST_STATE_PAUSED)
  ++ [AtomicIntSet (classified env (set_state_return env GST_STATE_PAUSED));
      ElementSetState GST_STATE_PLAYING].

Definition configured (i : GstSyncServerInfo) (p : GstPipeline) : GstPipeline :=
  with_latency (latency i) (with_uri (Some (uri i)) p).



(** ** A concrete session *)

Module Scenario.

Definition ms (n : Z) : Z := n * GST_MSECOND.

Definition bus : GstBus :=
  {| bus_watch := None; bus_sync_emission := 0; bus_sync_handlers := [] |}.

Definition pipe : GstPipeline :=
  {| p_id := 7; p_uri := None; p_latency := 0; p_start_time := 0;
     p_base_time := 0; p_use_clock := false; p_bus := bus |}.

Definition descriptor : GstSyncServerInfo :=
  {| uri := "http://media/a.ogg"; base_time := ms 1900; latency := ms 300;
     clock_addr := "10.0.0.1"; clock_port := 5000 |}.

(** The engine: PAUSED answers [paused], other state requests succeed. *)
Definition engine (now : Z) (paused : GstStateChangeReturn) (seek_ok : bool)
  (pos : option Z) : Oracle :=
  {| set_state_return := fun s =>
       match s with
       | GST_STATE_PAUSED => paused
       | _ => GST_STATE_CHANGE_SUCCESS
       end;
     seek_simple_return := fun _ => seek_ok;
     query_position_return := pos;
     clock_time := now;
     wait_for_sync_return := true;
     control_start_return := true;
     is_live_indeterminate := true |}.

Definition quiet : Oracle := engine 0 GST_STATE_CHANGE_ASYNC true None.

(** A freshly constructed client. *)
Definition fresh : GstSyncClient :=
  gst_sync_client_new (Some "10.0.0.2"%string) 3695 (Some pipe).

Definition self_of {A} (o : outcome A) : GstSyncClient :=
  match o with Ret _ s _ => s | Fault _ => fresh end.

(** ... started, *)
Definition started : GstSyncClient := self_of (gst_sync_client_start quiet fresh).

(** ... after its first descriptor, *)
Definition attached : GstSyncClient :=
  self_of (update_sync_info quiet descriptor started).

(** ... after the clock reported synchronisation (descriptor applied), *)
Definition applied : GstSyncClient :=
  self_of (bus_cb quiet
             (MsgElement None (Some ("gst-netclock-statistics"%string, Some true)))
             attached).

Definition to_playing : GstMessage :=
  MsgStateChanged (Some 7%N) GST_STATE_PAUSED GST_STATE_PLAYING
    GST_STATE_VOID_PENDING.

Definition to_ready : GstMessage :=
  MsgStateChanged (Some 7%N) GST_STATE_PAUSED GST_STATE_READY
    GST_STATE_VOID_PENDING.

(** ... and in the middle of a seek. *)
Definition seeking : GstSyncClient :=
  self_of (bus_cb (engine (ms 2050) GST_STATE_CHANGE_ASYNC true None)
             to_playing applied).

(** A descriptor whose base time is two ticks below [GST_CLOCK_TIME_NONE],
    and the client that has applied it. *)
Definition far_descriptor : GstSyncServerInfo :=
  {| uri := "http://media/a.ogg"; base_time := 2 ^ 64 - 2; latency := ms 300;
     clock_addr := "10.0.0.1"; clock_port := 5000 |}.

Definition far_applied : GstSyncClient := set_info (Some far_descriptor) applied.

End Scenario.

(** ** Object properties: [gst_sync_client_set_property], [_get_property] *)

(** The property ids of the client's enum. *)
Definition PROP_0 : Z := 0.
Definition PROP_CONTROL_ADDRESS : Z := 1.
Definition PROP_CONTROL_PORT : Z := 2.
Definition PROP_PIPELINE : Z := 3.

(** A [GValue] of one of the three types the client's properties have. *)
Inductive GValue :=
| GString (s : option string)
| GInt (n : Z)
| GObjectValue (o : option GstPipeline).

(** The [GValue] accessors; on a value of another type they refuse and
    give the zero of the result type (or leave the value as it is). *)
Definition g_value_dup_string (v : GValue) : option string :=
  match v with GString s => s | _ => None end.

Definition g_value_get_int (v : GValue) : Z :=
  match v with GInt n => n | _ => 0 end.

Definition g_value_dup_object (v : GValue) : option GstPipeline :=
  match v with GObjectValue o => o | _ => None end.

Definition g_value_set_string (v : GValue) (s : option string) : GValue :=
  match v with GString _ => GString s | _ => v end.

Definition g_value_set_int (v : GValue) (n : Z) : GValue :=
  match v with GInt _ => GInt n | _ => v end.

Definition g_value_set_object (v : GValue) (o : option GstPipeline) : GValue :=
  match v with GObjectValue _ => GObjectValue o | _ => v end.

(** [G_OBJECT_WARN_INVALID_PROPERTY_ID]: a warning. *)
Definition invalid_property_id : Call :=
  Log LOG_WARNING "invalid property id".

Definition gst_sync_client_set_property (property_id : Z) (value : GValue)
  : M unit :=
  if property_id =? PROP_CONTROL_ADDRESS then
    a <- read control_addr ;;
    match a with Some _ => call Free | None => ret tt end ;;
    modify (set_control_addr (g_value_dup_string value))
  else if property_id =? PROP_CONTROL_PORT then
    modify (set_control_port (g_value_get_int value))
  else if property_id =? PROP_PIPELINE then
    p <- read pipeline ;;
    match p with Some _ => call (ObjectUnref H_pipeline) | None => ret tt end ;;
    modify (set_pipeline (g_value_dup_object value))
  else call invalid_property_id.

(** [value] is the caller's [GValue]; the result is what it holds after the
    call. *)
Definition gst_sync_client_get_property (property_id : Z) (value : GValue)
  : M GValue :=
  if property_id =? PROP_CONTROL_ADDRESS then
    a <- read control_addr ;; ret (g_value_set_string value a)
  else if property_id =? PROP_CONTROL_PORT then
    n <- read control_port ;; ret (g_value_set_int value n)
  else if property_id =? PROP_PIPELINE then
    p <- read pipeline ;; ret (g_value_set_object value p)
  else call invalid_property_id ;; ret value.

(** The type each property id is installed with in
    [gst_sync_client_class_init]. *)
Definition holds (property_id : Z) (v : GValue) : bool :=
  match v with
  | GString _ => property_id =? PROP_CONTROL_ADDRESS
  | GInt _ => property_id =? PROP_CONTROL_PORT
  | GObjectValue _ => property_id =? PROP_PIPELINE
  end.

(** ** Sessions *)

(** What reaches the client once it listens: descriptors from the control
    client ([sync_info_notify]) and bus messages ([bus_cb]). *)
Inductive SessionEvent :=
| SyncInfo (env : Oracle) (i : GstSyncServerInfo)
| BusMessage (env : Oracle) (m : GstMessage).

Fixpoint session (evs : list SessionEvent) : M unit :=
  match evs with
  | [] => ret tt
  | SyncInfo env i :: rest => sync_info_notify env i ;; session rest
  | BusMessage env m :: rest => bus_cb env m ;; session rest
  end.

(** The client holds a pipeline, a clock and a descriptor: the state from
    the first descriptor on. *)
Definition attached (self : GstSyncClient) : bool :=
  match pipeline self, clock self, info self with
  | Some _, Some _, Some _ => true
  | _, _, _ => false
  end.

(** The state before that: a pipeline, and a clock if a descriptor is
    held. *)
Definition constructed (self : GstSyncClient) : bool :=
  match pipeline self, clock self, info self with
  | Some _, None, Some _ => false
  | Some _, _, _ => true
  | None, _, _ => false
  end.

(** ** Readings of the call log, continued *)

(** Calls whose arguments are read from the stored descriptor. *)
Definition reads_info (c : Call) : bool :=
  match c with
  | ObjectSetUri _ | PipelineSetLatency _ | ElementSetBaseTime _
  | ElementSeekSimple _ _ _ | NetClientClockNew _ _ _
  | SyncServerInfoFree _ => true
  | _ => false
  end.

(** [lock_ok held calls]: starting with [info_lock] held or not, the log
    never locks a held mutex nor unlocks a free one, makes every call that
    reads the descriptor while the mutex is held, and ends with the mutex
    free. *)
Fixpoint lock_ok (held : bool) (calls : list Call) : bool :=
  match calls with
  | [] => negb held
  | MutexLock :: rest => negb held && lock_ok true rest
  | MutexUnlock :: rest => held && lock_ok false rest
  | c :: rest => (if reads_info c then held else true) && lock_ok held rest
  end.

Definition count (P : Call -> bool) (calls : list Call) : nat :=
  List.length (filter P calls).

(** The order of the seek states within one application of a descriptor. *)
Definition seek_rank (s : SeekState) : nat :=
  match s with NEED_SEEK => 0 | IN_SEEK => 1 | DONE_SEEK => 2 end.

(** How many seeks, and how many base-time settings, the handlers can still
    make from a seek state. *)
Definition seeks_left (s : SeekState) : nat :=
  match s with NEED_SEEK => 1 | _ => 0 end.

Definition rebases_left (s : SeekState) : nat :=
  match s with DONE_SEEK => 0 | _ => 1 end.

Definition is_bus_message (e : SessionEvent) : bool :=
  match e with BusMessage _ _ => true | SyncInfo _ _ => false end.

(** The clock-statistics message that reports synchronisation. *)
Definition clock_synchronised_message (src : option N) : GstMessage :=
  MsgElement src (Some ("gst-netclock-statistics"%string, Some true)).

(** Whether an element message is such a report. *)
Definition reports_synchronised (st : option (string * option bool)) : bool :=
  gst_structure_has_name st "gst-netclock-statistics"
  && match st with Some (_, Some true) => true | _ => false end.

(** What every run of [bus_cb] on an attached client keeps. *)
Definition kept (self self' : GstSyncClient) : Prop :=
  attached self' = true /\
  info self' = info self /\
  clock self' = clock self /\
  client self' = client self /\
  control_addr self' = control_addr self /\
  control_port self' = control_port self /\
  option_map p_id (pipeline self') = option_map p_id (pipeline self) /\
  option_map p_bus (pipeline self') = option_map p_bus (pipeline self).

(** What it keeps, in addition, once the client is synchronised. *)
Definition advanced (self self' : GstSyncClient) (calls : list Call) : Prop :=
  synchronised self' = true /\
  (seek_rank (seek_state self) <= seek_rank (seek_state self'))%nat /\
  (count is_seek calls + seeks_left (seek_state self')
   <= seeks_left (seek_state self))%nat /\
  (count is_set_base_time calls + rebases_left (seek_state self')
   <= rebases_left (seek_state self))%nat.


(** The calls of the clock-statistics handler when synchronisation is
    confirmed, and when the wait for it times out. *)
Definition calls_clock_synchronised (env : Oracle) (i : GstSyncServerInfo)
  : list Call :=
  [ClockWaitForSync (10 * GST_SECOND);
   Log LOG_INFO "Clock is synchronised, starting playback"; MutexLock]
  ++ calls_update_pipeline env i ++ [MutexUnlock].

Definition calls_clock_timeout : list Call :=
  [ClockWaitForSync (10 * GST_SECOND);
   Log LOG_ERROR "Could not synchronise clock"].

Definition is_state_request (c : Call) : bool :=
  match c with ElementSetState _ => true | _ => false end.

Definition is_set_uri (c : Call) : bool :=
  match c with ObjectSetUri _ => true | _ => false end.

(** The calls of [gst_sync_client_set_property] for a value of the
    property's type: the value it replaces is released if there is one. *)
Definition calls_set_property (self : GstSyncClient) (v : GValue) : list Call :=
  match v with
  | GString _ =>
      match control_addr self with Some _ => [Free] | None => [] end
  | GInt _ => []
  | GObjectValue _ =>
      match pipeline self with
      | Some _ => [ObjectUnref H_pipeline]
      | None => []
      end
  end.

(** The client after [gst_sync_client_set_property] with such a value. *)
Definition with_property (v : GValue) (self : GstSyncClient) : GstSyncClient :=
  match v with
  | GString s => set_control_addr s self
  | GInt n => set_control_port n self
  | GObjectValue o => set_pipeline o self
  end.

(** The network clock made for a descriptor. *)
Definition clock_for (d : GstSyncServerInfo) : GstClock :=
  {| clk_name := "sync-server-clock"; clk_address := clock_addr d;
     clk_port := clock_port d; clk_bus := true |}.

(** The control client made by [gst_sync_client_start]. *)
Definition control_client_for (self : GstSyncClient) : GstSyncTcpControlClient :=
  {| cc_address := control_addr self; cc_port := control_port self;
     cc_notify_sync_info := [Cb_sync_info_notify] |}.

(** The pipeline after the first descriptor: it uses the network clock, and
    its bus has [bus_cb] as watch and as handler of synchronous async-done
    messages. *)
Definition subscribed (p : GstPipeline) : GstPipeline :=
  on_bus (bus_signal_connect "sync-message::async-done" Cb_bus_cb)
    (on_bus bus_enable_sync_message_emission
       (on_bus (bus_add_watch Cb_bus_cb) (with_use_clock true p))).

(** The calls of [update_sync_info] on the first descriptor. *)
Definition calls_first_descriptor (d : GstSyncServerInfo) : list Call :=
  [MutexLock;
   NetClientClockNew "sync-server-clock" (clock_addr d) (clock_port d);
   PipelineUseClock; PipelineGetBus; ObjectSetBus; BusAddWatch Cb_bus_cb;
   BusEnableSyncMessageEmission;
   SignalConnect H_bus "sync-message::async-done" Cb_bus_cb;
   ObjectUnref H_bus; MutexUnlock].

(** * Properties *)

Arguments wrap64 : simpl never.
Arguments sub64 : simpl never.
Arguments add64 : simpl never.
Arguments DEFAULT_SEEK_TOLERANCE : simpl never.
Arguments GST_CLOCK_TIME_NONE : simpl never.
Arguments GST_SECOND : simpl never.
Arguments seek_flags : simpl never.
Arguments to_gint64 : simpl never.

(** Evaluate a closed side condition. *)
Ltac by_eval :=
  vm_compute;
  repeat match goal with |- _ /\ _ => split end;
  first [ reflexivity | discriminate | intro; discriminate ].

(** Open the client record and push the known fields through. *)
Ltac open_client self :=
  destruct self as [ca cp inf pl ck cl sy ss]; simpl in *; subst; simpl in *.

(** ** The state-changed handler *)

Lemma wrap64_range z : 0 <= wrap64 z < 2 ^ 64.
Proof. unfold wrap64. apply Z.mod_pos_bound. reflexivity. Qed.

Lemma wrap64_small z : 0 <= z < 2 ^ 64 -> wrap64 z = z.
Proof. intros H. unfold wrap64. apply Z.mod_small. exact H. Qed.

Lemma to_gint64_low z : 0 <= z < 2 ^ 63 -> to_gint64 z = z.
Proof.
  intros H. unfold to_gint64. rewrite wrap64_small by lia.
  destruct (z <? 2 ^ 63) eqn:E; [reflexivity|].
  apply Z.ltb_ge in E. lia.
Qed.

Lemma to_gint64_high z : 2 ^ 63 <= z < 2 ^ 64 -> to_gint64 z = z - 2 ^ 64.
Proof.
  intros H. unfold to_gint64. rewrite wrap64_small by lia.
  destruct (z <? 2 ^ 63) eqn:E; [|reflexivity].
  apply Z.ltb_lt in E. lia.
Qed.

Lemma tolerance_value : DEFAULT_SEEK_TOLERANCE = 50000000.
Proof. reflexivity. Qed.

(** The guard is passed, in particular, by the PAUSED-to-PLAYING message of
    the client's own pipeline while [seek_state] is NEED_SEEK. *)
Lemma transition1_fires_playing self p pd :
  seek_state self = NEED_SEEK -> pipeline self = Some p ->
  transition1_fires self
    (MsgStateChanged (Some (p_id p)) GST_STATE_PAUSED GST_STATE_PLAYING pd)
  = true.
Proof.
  intros Hs Hp. simpl. rewrite Hs, Hp. simpl. rewrite N.eqb_refl. reflexivity.
Qed.

(** A state-changed message that does not pass the guard is ignored. *)
Lemma bus_cb_state_changed_ignored env self src o n pd :
  transition1_fires self (MsgStateChanged src o n pd) = false ->
  bus_cb env (MsgStateChanged src o n pd) self = Ret true self [].
Proof.
  intros Hf. open_client self.
  unfold bus_cb, bind, g_atomic_int_get, read. simpl.
  destruct (SeekState_eqb ss NEED_SEEK); simpl in *; [|reflexivity].
  destruct (ptr_eqb src (option_map p_id pl)); simpl in *; [|reflexivity].
  apply negb_false_iff in Hf. rewrite Hf. reflexivity.
Qed.

(** What a firing state-changed handler does, branch by branch. *)
Lemma bus_cb_transition1 env self m p i k :
  transition1_fires self m = true ->
  pipeline self = Some p -> info self = Some i -> clock self = Some k ->
  bus_cb env m self =
    if drift env i >? DEFAULT_SEEK_TOLERANCE then
      if seek_simple_return env (seek_position env i) then
        Ret true (set_seek_state IN_SEEK self) (calls_seek_accepted env i)
      else
        Ret true
          (set_seek_state DONE_SEEK
             (set_pipeline (Some (rebased (base_time i) p)) self))
          (calls_seek_rejected env i)
    else
      Ret true
        (set_seek_state DONE_SEEK
           (set_pipeline (Some (rebased (base_time i) p)) self))
        (calls_direct i).
Proof.
  destruct m as [| src o n pd | | |]; simpl; try discriminate.
  intros Hf Hp Hi Hk. open_client self.
  apply andb_prop in Hf as [Hf Hst]. apply andb_prop in Hf as [Hs Hsrc].
  apply negb_true_iff in Hst.
  unfold bus_cb, bind, g_atomic_int_get, read. simpl.
  rewrite Hs, Hsrc. simpl. rewrite Hst. simpl.
  unfold drift, seek_position, drift.
  destruct (sub64 (wrap64 (clock_time env)) (base_time i)
            >? DEFAULT_SEEK_TOLERANCE); simpl.
  - destruct (seek_simple_return env _); reflexivity.
  - reflexivity.
Qed.

(** While a seek is pending, every message other than async-done (and other
    than a clock-statistics message reaching a client not yet synchronised)
    leaves the client as it is. *)
Lemma bus_cb_seek_pending env self m p :
  seek_state self = IN_SEEK -> pipeline self = Some p ->
  leaves_seek_pending (synchronised self) m = true ->
  exists calls, bus_cb env m self = Ret true self calls.
Proof.
  intros Hs Hp Hm. open_client self.
  destruct m as [src st | src o n pd | src | src | src nm]; simpl in *;
    try discriminate.
  - subst. eexists. reflexivity.
  - eexists. reflexivity.
  - unfold bus_cb, bind, read. simpl.
    destruct (ptr_eqb src (Some (p_id p))); simpl; eexists; reflexivity.
  - eexists. reflexivity.
Qed.

Lemma bus_dispatch_seek_pending evs : forall self p,
  seek_state self = IN_SEEK -> pipeline self = Some p ->
  forallb (fun e => leaves_seek_pending (synchronised self) (snd e)) evs = true ->
  exists calls, bus_dispatch evs self = Ret tt self calls.
Proof.
  induction evs as [| [env m] evs IH]; intros self p Hs Hp Hall.
  - eexists. reflexivity.
  - simpl in Hall. apply andb_prop in Hall as [Hm Hall].
    destruct (bus_cb_seek_pending env self m p Hs Hp Hm) as [c1 E1].
    destruct (IH self p Hs Hp Hall) as [c2 E2].
    simpl. unfold bind. rewrite E1, E2. eexists. reflexivity.
Qed.

(** C1. When the state-changed handler fires (client in NEED_SEEK, message
    from the client's own pipeline, passing the state test) and the drift
    [now - base_time] is at most the tolerance, the handler sets the
    pipeline's base time to exactly the descriptor's base time, clears the
    start time (sets it to [GST_CLOCK_TIME_NONE]), issues no seek, and leaves
    [seek_state] at DONE_SEEK. *)
Theorem bus_cb_within_tolerance env self m p i k :
  transition1_fires self m = true ->
  pipeline self = Some p -> info self = Some i -> clock self = Some k ->
  drift env i <= DEFAULT_SEEK_TOLERANCE ->
  exists self' calls p',
    bus_cb env m self = Ret true self' calls /\
    pipeline self' = Some p' /\
    p_base_time p' = base_time i /\
    p_start_time p' = GST_CLOCK_TIME_NONE /\
    existsb is_seek calls = false /\
    In (ElementSetBaseTime (base_time i)) calls /\
    seek_state self' = DONE_SEEK.
Proof.
  intros Hf Hp Hi Hk Hd.
  rewrite (bus_cb_transition1 env self m p i k Hf Hp Hi Hk).
  assert (E : (drift env i >? DEFAULT_SEEK_TOLERANCE) = false).
  { rewrite Z.gtb_ltb. apply Z.ltb_ge. exact Hd. }
  rewrite E.
  exists (set_seek_state DONE_SEEK
            (set_pipeline (Some (rebased (base_time i) p)) self)).
  exists (calls_direct i), (rebased (base_time i) p).
  repeat split; simpl; auto 10.
Qed.

Lemma bus_cb_within_tolerance_witness :
  exists self' calls p',
    bus_cb (Scenario.engine (Scenario.ms 1920) GST_STATE_CHANGE_ASYNC true None)
      Scenario.to_playing Scenario.applied = Ret true self' calls /\
    pipeline self' = Some p' /\
    p_base_time p' = Scenario.ms 1900 /\
    p_start_time p' = GST_CLOCK_TIME_NONE /\
    existsb is_seek calls = false /\
    In (ElementSetBaseTime (Scenario.ms 1900)) calls /\
    seek_state self' = DONE_SEEK.
Proof.
  refine (bus_cb_within_tolerance
            (Scenario.engine (Scenario.ms 1920) GST_STATE_CHANGE_ASYNC true None)
            Scenario.applied Scenario.to_playing _ Scenario.descriptor
            _ _ _ _ _ _);
    [ by_eval | reflexivity | reflexivity | reflexivity | by_eval ].
Defined.

Lemma seek_flags_accurate_flush :
  has_flag seek_flags GST_SEEK_FLAG_ACCURATE = true /\
  has_flag seek_flags GST_SEEK_FLAG_FLUSH = true.
Proof. split; reflexivity. Qed.

Lemma seek_position_exact env i :
  drift env i + DEFAULT_SEEK_TOLERANCE < 2 ^ 64 ->
  seek_position env i = drift env i + DEFAULT_SEEK_TOLERANCE.
Proof.
  intros H. unfold seek_position, add64. apply wrap64_small.
  pose proof (wrap64_range (wrap64 (clock_time env) - base_time i)) as R.
  fold (sub64 (wrap64 (clock_time env)) (base_time i)) in R.
  fold (drift env i) in R. rewrite tolerance_value in *. lia.
Qed.

Lemma seek_argument_exact env i :
  drift env i + DEFAULT_SEEK_TOLERANCE < 2 ^ 63 ->
  seek_argument env i = drift env i + DEFAULT_SEEK_TOLERANCE.
Proof.
  intros H. unfold seek_argument.
  pose proof (wrap64_range (wrap64 (clock_time env) - base_time i)) as R.
  fold (sub64 (wrap64 (clock_time env)) (base_time i)) in R.
  fold (drift env i) in R.
  rewrite seek_position_exact by lia.
  apply to_gint64_low. rewrite tolerance_value in *. lia.
Qed.

(** ** The async-done handler *)

Lemma bus_cb_async_done env self src p i :
  seek_state self = IN_SEEK -> pipeline self = Some p -> info self = Some i ->
  bus_cb env (MsgAsyncDone src) self =
    match query_position_return env with
    | Some pos =>
        Ret true
          (set_seek_state DONE_SEEK
             (set_pipeline (Some (rebased (add64 (base_time i) pos) p)) self))
          (calls_async_done (add64 (base_time i) pos))
    | None =>
        Ret true (set_seek_state DONE_SEEK self)
          [ElementQueryPosition GST_FORMAT_TIME; AtomicIntSet DONE_SEEK]
    end.
Proof.
  intros Hs Hp Hi. open_client self.
  unfold bus_cb, bind, g_atomic_int_get, read. simpl.
  destruct (query_position_return env); reflexivity.
Qed.

(** C2. When the state-changed handler fires and the drift exceeds the
    tolerance, the handler writes IN_SEEK to [seek_state] before it issues
    the seek, and issues exactly one seek, accurate and flushing, to the
    position [drift + tolerance]: the sum is computed, like the drift, on
    unsigned 64 bits and passed as a [gint64], so the pipeline receives the
    plain sum whenever that is below [2^63].  If the seek is accepted,
    [seek_state] is IN_SEEK when the handler returns, stays IN_SEEK across
    every later message that is not async-done (and does not start a new
    application of the descriptor), and the async-done handler moves it to
    DONE_SEEK. *)
Theorem bus_cb_beyond_tolerance env self m p i k :
  transition1_fires self m = true ->
  pipeline self = Some p -> info self = Some i -> clock self = Some k ->
  drift env i > DEFAULT_SEEK_TOLERANCE ->
  exists self' calls,
    bus_cb env m self = Ret true self' calls /\
    precedes (is_atomic_set_to IN_SEEK) is_seek calls = true /\
    filter is_seek calls =
      [ElementSeekSimple GST_FORMAT_TIME seek_flags (seek_argument env i)] /\
    seek_argument env i
      = to_gint64 (wrap64 (drift env i + DEFAULT_SEEK_TOLERANCE)) /\
    (drift env i + DEFAULT_SEEK_TOLERANCE < 2 ^ 63 ->
     seek_argument env i = drift env i + DEFAULT_SEEK_TOLERANCE) /\
    has_flag seek_flags GST_SEEK_FLAG_ACCURATE = true /\
    has_flag seek_flags GST_SEEK_FLAG_FLUSH = true /\
    (seek_simple_return env (seek_position env i) = true ->
     seek_state self' = IN_SEEK /\
     (forall evs,
         forallb (fun e => leaves_seek_pending (synchronised self') (snd e))
           evs = true ->
         exists calls', bus_dispatch evs self' = Ret tt self' calls') /\
     (forall env' src, exists self'' calls'',
         bus_cb env' (MsgAsyncDone src) self' = Ret true self'' calls'' /\
         seek_state self'' = DONE_SEEK)).
Proof.
  intros Hf Hp Hi Hk Hd.
  rewrite (bus_cb_transition1 env self m p i k Hf Hp Hi Hk).
  assert (E : (drift env i >? DEFAULT_SEEK_TOLERANCE) = true).
  { rewrite Z.gtb_ltb. apply Z.ltb_lt. lia. }
  rewrite E.
  destruct (seek_simple_return env (seek_position env i)) eqn:Hseek.
  - exists (set_seek_state IN_SEEK self), (calls_seek_accepted env i).
    do 4 (split; [reflexivity|]).
    split; [apply seek_argument_exact|].
    do 2 (split; [reflexivity|]).
    intros _. split; [reflexivity|]. split.
    + intros evs Hall.
      apply (bus_dispatch_seek_pending evs (set_seek_state IN_SEEK self) p);
        [reflexivity | exact Hp | exact Hall].
    + intros env' src.
      rewrite (bus_cb_async_done env' (set_seek_state IN_SEEK self) src p i
                 eq_refl Hp Hi).
      destruct (query_position_return env'); eexists; eexists;
        split; reflexivity.
  - exists (set_seek_state DONE_SEEK
              (set_pipeline (Some (rebased (base_time i) p)) self)).
    exists (calls_seek_rejected env i).
    do 4 (split; [reflexivity|]).
    split; [apply seek_argument_exact|].
    do 2 (split; [reflexivity|]).
    discriminate.
Qed.

Lemma bus_cb_beyond_tolerance_witness :
  exists self' calls,
    bus_cb (Scenario.engine (Scenario.ms 2050) GST_STATE_CHANGE_ASYNC true None)
      Scenario.to_playing Scenario.applied = Ret true self' calls /\
    In (ElementSeekSimple GST_FORMAT_TIME seek_flags (Scenario.ms 200)) calls /\
    seek_state self' = IN_SEEK.
Proof.
  destruct (bus_cb_beyond_tolerance
              (Scenario.engine (Scenario.ms 2050) GST_STATE_CHANGE_ASYNC true None)
              Scenario.applied Scenario.to_playing _ Scenario.descriptor _
              ltac:(by_eval) eq_refl eq_refl eq_refl ltac:(by_eval))
    as (self' & calls & Hrun & _ & Hseek & _ & _ & _ & _ & Hacc).
  exists self', calls. split; [exact Hrun|]. split.
  - assert (Hin : In (ElementSeekSimple GST_FORMAT_TIME seek_flags
                        (Scenario.ms 200)) (filter is_seek calls)).
    { rewrite Hseek. left. reflexivity. }
    apply filter_In in Hin. exact (proj1 Hin).
  - exact (proj1 (Hacc eq_refl)).
Defined.

(** C6. When the state-changed handler fires, the drift exceeds the
    tolerance and the pipeline rejects the seek, the same invocation falls
    back: it sets the pipeline's base time to the descriptor's base time
    (start time cleared) and writes DONE_SEEK last, so [seek_state] is
    DONE_SEEK, not IN_SEEK, once the handler has returned. *)
Theorem bus_cb_seek_rejected env self m p i k :
  transition1_fires self m = true ->
  pipeline self = Some p -> info self = Some i -> clock self = Some k ->
  drift env i > DEFAULT_SEEK_TOLERANCE ->
  seek_simple_return env (seek_position env i) = false ->
  exists self' calls p',
    bus_cb env m self = Ret true self' calls /\
    pipeline self' = Some p' /\
    p_base_time p' = base_time i /\
    p_start_time p' = GST_CLOCK_TIME_NONE /\
    seek_state self' = DONE_SEEK /\
    seek_state self' <> IN_SEEK /\
    (exists before, calls = before ++ [AtomicIntSet DONE_SEEK; MutexUnlock]) /\
    precedes is_seek is_set_base_time calls = true.
Proof.
  intros Hf Hp Hi Hk Hd Hrej.
  rewrite (bus_cb_transition1 env self m p i k Hf Hp Hi Hk).
  assert (E : (drift env i >? DEFAULT_SEEK_TOLERANCE) = true).
  { rewrite Z.gtb_ltb. apply Z.ltb_lt. lia. }
  rewrite E, Hrej.
  exists (set_seek_state DONE_SEEK
            (set_pipeline (Some (rebased (base_time i) p)) self)).
  exists (calls_seek_rejected env i), (rebased (base_time i) p).
  do 5 (split; [reflexivity|]).
  split; [discriminate|]. split; [|reflexivity].
  exists [ClockGetTime; AtomicIntSet IN_SEEK; MutexLock;
          Log LOG_INFO "Seeking: %lu";
          ElementSeekSimple GST_FORMAT_TIME seek_flags (seek_argument env i);
          Log LOG_WARNING "Could not perform seek";
          ElementSetStartTime GST_CLOCK_TIME_NONE;
          ElementSetBaseTime (base_time i)].
  reflexivity.
Qed.

Lemma bus_cb_seek_rejected_witness :
  exists self' calls p',
    bus_cb (Scenario.engine (Scenario.ms 2050) GST_STATE_CHANGE_ASYNC false None)
      Scenario.to_playing Scenario.applied = Ret true self' calls /\
    pipeline self' = Some p' /\
    p_base_time p' = base_time Scenario.descriptor /\
    p_start_time p' = GST_CLOCK_TIME_NONE /\
    seek_state self' = DONE_SEEK /\
    seek_state self' <> IN_SEEK /\
    (exists before, calls = before ++ [AtomicIntSet DONE_SEEK; MutexUnlock]) /\
    precedes is_seek is_set_base_time calls = true.
Proof.
  refine (bus_cb_seek_rejected
            (Scenario.engine (Scenario.ms 2050) GST_STATE_CHANGE_ASYNC false None)
            Scenario.applied Scenario.to_playing _ Scenario.descriptor
            _ _ _ _ _ _ _);
    [ by_eval | reflexivity | reflexivity | reflexivity | by_eval | by_eval ].
Defined.

(** C3. An async-done message received while [seek_state] is IN_SEEK: when
    the position query answers [pos], the pipeline's base time is set to
    [base_time + pos] of the stored descriptor (a 64-bit sum: the plain sum
    whenever that fits); when the query fails, the pipeline is left as it
    is and no base time is set; either way [seek_state] is DONE_SEEK
    afterwards, the write being the handler's last call. *)
Theorem bus_cb_async_done_in_seek env self src p i :
  seek_state self = IN_SEEK -> pipeline self = Some p -> info self = Some i ->
  exists self' calls,
    bus_cb env (MsgAsyncDone src) self = Ret true self' calls /\
    seek_state self' = DONE_SEEK /\
    (exists before, calls = before ++ [AtomicIntSet DONE_SEEK]) /\
    (forall pos, query_position_return env = Some pos ->
       exists p', pipeline self' = Some p' /\
         p_base_time p' = add64 (base_time i) pos /\
         p_start_time p' = GST_CLOCK_TIME_NONE /\
         (0 <= base_time i -> 0 <= pos -> base_time i + pos < 2 ^ 64 ->
          p_base_time p' = base_time i + pos)) /\
    (query_position_return env = None ->
       pipeline self' = pipeline self /\
       existsb is_set_base_time calls = false).
Proof.
  intros Hs Hp Hi.
  rewrite (bus_cb_async_done env self src p i Hs Hp Hi).
  destruct (query_position_return env) as [pos|].
  - eexists. eexists. split; [reflexivity|]. split; [reflexivity|]. split.
    + exists [ElementQueryPosition GST_FORMAT_TIME;
              Log LOG_INFO "Adding offset: %lu"; MutexLock;
              ElementSetStartTime GST_CLOCK_TIME_NONE;
              ElementSetBaseTime (add64 (base_time i) pos); MutexUnlock].
      reflexivity.
    + split; [|discriminate].
      intros pos' E. injection E as <-.
      exists (rebased (add64 (base_time i) pos) p).
      do 3 (split; [reflexivity|]).
      intros Hb Hpos Hsum. simpl. unfold add64. apply wrap64_small. lia.
  - exists (set_seek_state DONE_SEEK self). eexists.
    split; [reflexivity|]. split; [reflexivity|]. split.
    + exists [ElementQueryPosition GST_FORMAT_TIME]. reflexivity.
    + split; [discriminate|]. intros _. split; reflexivity.
Qed.

Lemma bus_cb_async_done_in_seek_witness :
  exists self' calls p',
    bus_cb (Scenario.engine 0 GST_STATE_CHANGE_ASYNC true
              (Some (Scenario.ms 205)))
      (MsgAsyncDone (Some 7%N)) Scenario.seeking = Ret true self' calls /\
    seek_state self' = DONE_SEEK /\
    pipeline self' = Some p' /\
    p_base_time p' = Scenario.ms 2105.
Proof.
  destruct (bus_cb_async_done_in_seek
              (Scenario.engine 0 GST_STATE_CHANGE_ASYNC true
                 (Some (Scenario.ms 205)))
              Scenario.seeking (Some 7%N) _ Scenario.descriptor
              eq_refl eq_refl eq_refl)
    as (self' & calls & Hrun & Hdone & _ & Hpos & _).
  destruct (Hpos (Scenario.ms 205) eq_refl) as (p' & Hp' & _ & _ & Hsum).
  exists self', calls, p'.
  split; [exact Hrun|]. split; [exact Hdone|]. split; [exact Hp'|].
  apply Hsum; by_eval.
Defined.

(** ** Applying the descriptor: [update_pipeline] *)

Lemma update_pipeline_runs env self p i :
  pipeline self = Some p -> info self = Some i ->
  update_pipeline env self =
    Ret tt
      (set_seek_state (classified env (set_state_return env GST_STATE_PAUSED))
         (set_pipeline (Some (configured i p)) self))
      (calls_update_pipeline env i).
Proof.
  intros Hp Hi. open_client self.
  unfold update_pipeline, calls_update_pipeline, bind. simpl.
  destruct (set_state_return env GST_STATE_PAUSED); reflexivity.
Qed.

(** The PLAYING request always comes after the write to [seek_state], and
    is the last call. *)
Lemma update_pipeline_commits_before_playing env i :
  precedes is_atomic_set (is_set_state GST_STATE_PLAYING)
    (calls_update_pipeline env i) = true /\
  exists before s,
    calls_update_pipeline env i =
      before ++ [AtomicIntSet s; ElementSetState GST_STATE_PLAYING].
Proof.
  unfold calls_update_pipeline.
  destruct (set_state_return env GST_STATE_PAUSED); simpl;
    (split; [reflexivity|]).
  - exists [ObjectSetUri (uri i); PipelineSetLatency (latency i);
            ElementSetState GST_STATE_PAUSED;
            Log LOG_WARNING "Could not play uri: %s"].
    eexists. reflexivity.
  - exists [ObjectSetUri (uri i); PipelineSetLatency (latency i);
            ElementSetState GST_STATE_PAUSED].
    eexists. reflexivity.
  - exists [ObjectSetUri (uri i); PipelineSetLatency (latency i);
            ElementSetState GST_STATE_PAUSED].
    eexists. reflexivity.
  - exists [ObjectSetUri (uri i); PipelineSetLatency (latency i);
            ElementSetState GST_STATE_PAUSED;
            Log LOG_DEBUG "Detected live pipeline"].
    eexists. reflexivity.
Qed.

(** A PAUSED request answering no-preroll marks the source live. *)
Lemma update_pipeline_live env self p i :
  pipeline self = Some p -> info self = Some i ->
  set_state_return env GST_STATE_PAUSED = GST_STATE_CHANGE_NO_PREROLL ->
  exists self' calls,
    update_pipeline env self = Ret tt self' calls /\
    seek_state self' = DONE_SEEK /\
    existsb is_seek calls = false.
Proof.
  intros Hp Hi Hr. rewrite (update_pipeline_runs env self p i Hp Hi).
  unfold calls_update_pipeline. rewrite Hr.
  eexists. eexists. repeat split; reflexivity.
Qed.

(** C4 (the failing PAUSED request).  When the PAUSED request fails,
    [update_pipeline] logs the warning and then goes on: it writes to
    [seek_state] the value chosen from the local [is_live], which no case
    has assigned, and it requests PLAYING all the same. *)
Theorem update_pipeline_paused_failure env self p i :
  pipeline self = Some p -> info self = Some i ->
  set_state_return env GST_STATE_PAUSED = GST_STATE_CHANGE_FAILURE ->
  exists self',
    update_pipeline env self =
      Ret tt self'
        [ObjectSetUri (uri i); PipelineSetLatency (latency i);
         ElementSetState GST_STATE_PAUSED;
         Log LOG_WARNING "Could not play uri: %s";
         AtomicIntSet
           (if is_live_indeterminate env then DONE_SEEK else NEED_SEEK);
         ElementSetState GST_STATE_PLAYING] /\
    seek_state self' =
      (if is_live_indeterminate env then DONE_SEEK else NEED_SEEK).
Proof.
  intros Hp Hi Hr. rewrite (update_pipeline_runs env self p i Hp Hi).
  unfold calls_update_pipeline. rewrite Hr.
  eexists. split; reflexivity.
Qed.

Lemma update_pipeline_paused_failure_witness :
  exists self' calls,
    update_pipeline (Scenario.engine 0 GST_STATE_CHANGE_FAILURE true None)
      Scenario.attached = Ret tt self' calls /\
    existsb (is_set_state GST_STATE_PLAYING) calls = true /\
    seek_state self' = DONE_SEEK.
Proof.
  destruct (update_pipeline_paused_failure
              (Scenario.engine 0 GST_STATE_CHANGE_FAILURE true None)
              Scenario.attached _ Scenario.descriptor
              eq_refl eq_refl eq_refl) as (self' & Hrun & Hs).
  exists self'. eexists. split; [exact Hrun|]. split; [reflexivity|exact Hs].
Defined.

(** C5 (the state test of the handler).  The state-changed handler fires
    on every state-changed message of the client's own pipeline whose old
    state is PAUSED, whatever the new state, when [seek_state] is NEED_SEEK:
    the test that ignores the message is a conjunction, so it only ignores
    messages with old state not PAUSED and new state not PLAYING.  On a
    PAUSED-to-READY message, for one, the handler writes IN_SEEK and acts on
    the pipeline. *)
Theorem bus_cb_fires_when_leaving_paused env self p i k new_state pending :
  seek_state self = NEED_SEEK ->
  pipeline self = Some p -> info self = Some i -> clock self = Some k ->
  exists self' calls,
    bus_cb env
      (MsgStateChanged (Some (p_id p)) GST_STATE_PAUSED new_state pending)
      self = Ret true self' calls /\
    seek_state self' <> NEED_SEEK /\
    In (AtomicIntSet IN_SEEK) calls /\
    existsb is_engine_call calls = true.
Proof.
  intros Hs Hp Hi Hk.
  assert (Hf : transition1_fires self
                 (MsgStateChanged (Some (p_id p)) GST_STATE_PAUSED new_state
                    pending) = true).
  { simpl. rewrite Hs, Hp. simpl. rewrite N.eqb_refl. reflexivity. }
  rewrite (bus_cb_transition1 env self _ p i k Hf Hp Hi Hk).
  destruct (drift env i >? DEFAULT_SEEK_TOLERANCE);
    [destruct (seek_simple_return env (seek_position env i))|];
    eexists; eexists; (split; [reflexivity|]);
    (split; [discriminate|]); (split; [|reflexivity]);
    right; left; reflexivity.
Qed.

Lemma bus_cb_fires_when_leaving_paused_witness :
  exists self' calls p',
    bus_cb (Scenario.engine (Scenario.ms 1920) GST_STATE_CHANGE_ASYNC true None)
      Scenario.to_ready Scenario.applied = Ret true self' calls /\
    seek_state Scenario.applied = NEED_SEEK /\
    seek_state self' = DONE_SEEK /\
    pipeline self' = Some p' /\
    p_base_time p' = base_time Scenario.descriptor /\
    In (ElementSetBaseTime (base_time Scenario.descriptor)) calls.
Proof.
  destruct (bus_cb_fires_when_leaving_paused
              (Scenario.engine (Scenario.ms 1920) GST_STATE_CHANGE_ASYNC true
                 None)
              Scenario.applied _ Scenario.descriptor _ GST_STATE_READY
              GST_STATE_VOID_PENDING eq_refl eq_refl eq_refl eq_refl)
    as (self' & calls & Hrun & _).
  vm_compute in Hrun. injection Hrun as <- <-.
  eexists. eexists. eexists.
  split; [vm_compute; reflexivity|].
  repeat split; vm_compute; auto 10.
Defined.

(** C10 (as amended).  When the reference clock is behind the descriptor's
    base time, the 64-bit subtraction wraps to [2^64 - (base_time - now)];
    provided the clock is behind by less than [2^64 - tolerance], the wrapped
    drift exceeds the tolerance and the firing handler seeks.  The position
    the pipeline receives is the wrapped drift plus the tolerance, on 64 bits
    and passed as a [gint64]: it is [tolerance - lag] for a lag
    [base_time - now] of at most [2^63 + tolerance] (negative once the lag
    exceeds the tolerance), and [2^64 + tolerance - lag] beyond. *)
Theorem bus_cb_clock_behind_base_time env self m p i k :
  transition1_fires self m = true ->
  pipeline self = Some p -> info self = Some i -> clock self = Some k ->
  0 <= clock_time env < base_time i -> base_time i < 2 ^ 64 ->
  base_time i - clock_time env < 2 ^ 64 - DEFAULT_SEEK_TOLERANCE ->
  drift env i = 2 ^ 64 - (base_time i - clock_time env) /\
  drift env i > DEFAULT_SEEK_TOLERANCE /\
  exists self' calls,
    bus_cb env m self = Ret true self' calls /\
    filter is_seek calls =
      [ElementSeekSimple GST_FORMAT_TIME seek_flags (seek_argument env i)] /\
    seek_argument env i =
      (if base_time i - clock_time env <=? 2 ^ 63 + DEFAULT_SEEK_TOLERANCE
       then DEFAULT_SEEK_TOLERANCE - (base_time i - clock_time env)
       else 2 ^ 64 + DEFAULT_SEEK_TOLERANCE - (base_time i - clock_time env)).
Proof.
  intros Hf Hp Hi Hk Hnow Hbase Hgap.
  assert (Hd : drift env i = 2 ^ 64 - (base_time i - clock_time env)).
  { unfold drift, sub64. rewrite (wrap64_small (clock_time env)) by lia.
    unfold wrap64. symmetry. apply Z.mod_unique with (q := -1); lia. }
  split; [exact Hd|].
  assert (Hgt : drift env i > DEFAULT_SEEK_TOLERANCE) by lia.
  split; [exact Hgt|].
  rewrite (bus_cb_transition1 env self m p i k Hf Hp Hi Hk).
  assert (E : (drift env i >? DEFAULT_SEEK_TOLERANCE) = true).
  { rewrite Z.gtb_ltb. apply Z.ltb_lt. lia. }
  rewrite E.
  assert (Harg : seek_argument env i =
            (if base_time i - clock_time env
                <=? 2 ^ 63 + DEFAULT_SEEK_TOLERANCE
             then DEFAULT_SEEK_TOLERANCE - (base_time i - clock_time env)
             else 2 ^ 64 + DEFAULT_SEEK_TOLERANCE
                  - (base_time i - clock_time env))).
  { unfold seek_argument, seek_position, add64. rewrite Hd.
    rewrite tolerance_value in *.
    destruct (Z_le_gt_dec (base_time i - clock_time env) 50000000) as [Hs|Hl].
    - assert (Hw : wrap64 (2 ^ 64 - (base_time i - clock_time env) + 50000000)
                   = 50000000 - (base_time i - clock_time env)).
      { unfold wrap64. symmetry. apply Z.mod_unique with (q := 1); lia. }
      rewrite Hw, to_gint64_low by lia.
      destruct (base_time i - clock_time env <=? 2 ^ 63 + 50000000) eqn:Hc;
        [reflexivity|]. apply Z.leb_gt in Hc. lia.
    - rewrite wrap64_small by lia.
      destruct (base_time i - clock_time env <=? 2 ^ 63 + 50000000) eqn:Hc.
      + apply Z.leb_le in Hc. rewrite to_gint64_high by lia. lia.
      + apply Z.leb_gt in Hc. rewrite to_gint64_low by lia. lia. }
  destruct (seek_simple_return env (seek_position env i));
    eexists; eexists; (split; [reflexivity|]); (split; [reflexivity|]);
    exact Harg.
Qed.

Lemma bus_cb_clock_behind_base_time_witness :
  drift (Scenario.engine (Scenario.ms 1800) GST_STATE_CHANGE_ASYNC true None)
    Scenario.descriptor = 2 ^ 64 - Scenario.ms 100 /\
  exists self' calls,
    bus_cb (Scenario.engine (Scenario.ms 1800) GST_STATE_CHANGE_ASYNC true None)
      Scenario.to_playing Scenario.applied = Ret true self' calls /\
    filter is_seek calls =
      [ElementSeekSimple GST_FORMAT_TIME seek_flags (- Scenario.ms 50)].
Proof.
  destruct (bus_cb_clock_behind_base_time
              (Scenario.engine (Scenario.ms 1800) GST_STATE_CHANGE_ASYNC true
                 None)
              Scenario.applied Scenario.to_playing _ Scenario.descriptor _
              ltac:(by_eval) eq_refl eq_refl eq_refl
              ltac:(by_eval) ltac:(by_eval) ltac:(by_eval))
    as (Hd & _ & self' & calls & Hrun & Hseek & Harg).
  split; [exact Hd|].
  exists self', calls. split; [exact Hrun|].
  rewrite Hseek, Harg. reflexivity.
Defined.

(** C10 (as stated) fails: with the clock at 0 and a base time of
    [2^64 - 2] the clock is behind the base time, yet the wrapped drift is 2,
    within the tolerance, and the handler sets the base time directly,
    without a seek. *)
Lemma clock_behind_base_time_without_seek :
  0 <= clock_time Scenario.quiet < base_time Scenario.far_descriptor /\
  base_time Scenario.far_descriptor < 2 ^ 64 /\
  drift Scenario.quiet Scenario.far_descriptor = 2 /\
  ~ drift Scenario.quiet Scenario.far_descriptor > DEFAULT_SEEK_TOLERANCE /\
  exists self' calls,
    bus_cb Scenario.quiet Scenario.to_playing Scenario.far_applied
      = Ret true self' calls /\
    existsb is_seek calls = false /\
    In (ElementSetBaseTime (base_time Scenario.far_descriptor)) calls /\
    seek_state self' = DONE_SEEK.
Proof.
  split; [by_eval|]. split; [by_eval|]. split; [by_eval|].
  split; [by_eval|].
  eexists. eexists. split; [vm_compute; reflexivity|].
  split; [reflexivity|]. split; [|reflexivity].
  vm_compute. auto 10.
Qed.

(** ** Descriptor updates: [update_sync_info] *)

(** C7. A descriptor arriving while one is stored: when locator and base
    time both equal the stored ones, the client is left exactly as it was
    (stored descriptor, [seek_state] and pipeline included) and the only
    calls are the lock and the unlock; when either differs, the pipeline is
    first driven to NULL, next the stored descriptor is freed and replaced by
    the new one, and only then [update_pipeline] runs, on the new
    descriptor. *)
Theorem update_sync_info_existing env self old new_info p :
  info self = Some old -> pipeline self = Some p ->
  (uri old = uri new_info /\ base_time old = base_time new_info ->
   update_sync_info env new_info self = Ret tt self [MutexLock; MutexUnlock]) /\
  (uri old <> uri new_info \/ base_time old <> base_time new_info ->
   exists self',
     update_pipeline env (set_info (Some new_info) self)
       = Ret tt self' (calls_update_pipeline env new_info) /\
     update_sync_info env new_info self =
       Ret tt self'
         (MutexLock :: ElementSetState GST_STATE_NULL
            :: SyncServerInfoFree old
            :: calls_update_pipeline env new_info ++ [MutexUnlock]) /\
     info self' = Some new_info /\
     precedes (is_set_state GST_STATE_NULL)
       (fun c => is_set_state GST_STATE_PAUSED c
                 || match c with ObjectSetUri _ => true | _ => false end)
       (MutexLock :: ElementSetState GST_STATE_NULL
          :: SyncServerInfoFree old
          :: calls_update_pipeline env new_info ++ [MutexUnlock]) = true).
Proof.
  intros Hi Hp. split.
  - intros [Hu Hb]. open_client self.
    unfold update_sync_info, bind. simpl.
    rewrite Hu, Hb, String.eqb_refl, Z.eqb_refl. reflexivity.
  - intros Hdiff.
    assert (Hc : negb (String.eqb (uri old) (uri new_info))
                 || negb (base_time old =? base_time new_info) = true).
    { destruct Hdiff as [Hu | Hb].
      - apply String.eqb_neq in Hu. rewrite Hu. reflexivity.
      - apply Z.eqb_neq in Hb. rewrite Hb. apply orb_true_r. }
    exists (set_seek_state
              (classified env (set_state_return env GST_STATE_PAUSED))
              (set_pipeline (Some (configured new_info p))
                 (set_info (Some new_info) self))).
    split.
    { apply update_pipeline_runs; [exact Hp | reflexivity]. }
    split; [|split; [reflexivity | reflexivity]].
    open_client self.
    unfold update_sync_info, bind. simpl. rewrite Hc.
    unfold update_pipeline, calls_update_pipeline, bind. simpl.
    destruct (set_state_return env GST_STATE_PAUSED); reflexivity.
Qed.

Lemma update_sync_info_existing_witness :
  update_sync_info Scenario.quiet Scenario.descriptor Scenario.applied
    = Ret tt Scenario.applied [MutexLock; MutexUnlock] /\
  exists self',
    update_sync_info Scenario.quiet Scenario.far_descriptor Scenario.applied
      = Ret tt self'
          (MutexLock :: ElementSetState GST_STATE_NULL
             :: SyncServerInfoFree Scenario.descriptor
             :: calls_update_pipeline Scenario.quiet Scenario.far_descriptor
                ++ [MutexUnlock]) /\
    info self' = Some Scenario.far_descriptor.
Proof.
  split.
  - refine (proj1 (update_sync_info_existing Scenario.quiet Scenario.applied
                     Scenario.descriptor Scenario.descriptor _
                     eq_refl eq_refl) _).
    split; reflexivity.
  - assert (Hne : uri Scenario.descriptor <> uri Scenario.far_descriptor \/
                   base_time Scenario.descriptor
                   <> base_time Scenario.far_descriptor).
    { right. by_eval. }
    pose proof (update_sync_info_existing Scenario.quiet Scenario.applied
                  Scenario.descriptor Scenario.far_descriptor _
                  eq_refl eq_refl) as [_ H].
    destruct (H Hne) as (self' & _ & Hrun & Hinfo & _).
    exists self'. split; [exact Hrun | exact Hinfo].
Defined.

(** ** The subscription made on the first descriptor *)

Lemma sync_message_detail n :
  String.eqb "sync-message::async-done" (String.append "sync-message::" n)
  = String.eqb "async-done" n.
Proof. reflexivity. Qed.

(** C8 (as amended).  On the first descriptor, given a pipeline whose bus
    has no watch and no sync-message handler yet, the client installs
    [bus_cb] as the asynchronous bus watch, which every message kind reaches,
    and connects it to the synchronous channel for the async-done kind only:
    clock-statistics (element) messages reach the client through the
    asynchronous watch and not synchronously. *)
Theorem update_sync_info_first_subscription env self new_info p :
  info self = None -> pipeline self = Some p ->
  bus_watch (p_bus p) = None -> bus_sync_handlers (p_bus p) = [] ->
  exists self' calls p',
    update_sync_info env new_info self = Ret tt self' calls /\
    pipeline self' = Some p' /\
    info self' = Some new_info /\
    (forall t,
        sync_recipients (p_bus p') t =
          if String.eqb "async-done" (gst_message_type_get_name t)
          then [Cb_bus_cb] else []) /\
    sync_recipients (p_bus p') GST_MESSAGE_ASYNC_DONE = [Cb_bus_cb] /\
    sync_recipients (p_bus p') GST_MESSAGE_ELEMENT = [] /\
    (forall t, async_recipients (p_bus p') t = [Cb_bus_cb]).
Proof.
  intros Hi Hp Hw Hh.
  destruct self as [ca cp inf pl ck cl sy ss].
  destruct p as [id u l st bt uc [w n hs]].
  simpl in Hi, Hp, Hw, Hh. subst.
  eexists. eexists. eexists.
  split; [unfold update_sync_info, bind; simpl; reflexivity|].
  split; [reflexivity|]. split; [reflexivity|].
  split; [|split; [reflexivity | split; [reflexivity | reflexivity]]].
  intros t. destruct t as [| | | | nm]; try reflexivity.
  unfold sync_recipients. cbn -[String.eqb String.append].
  rewrite sync_message_detail.
  destruct (String.eqb "async-done" nm); reflexivity.
Qed.

Lemma update_sync_info_first_subscription_witness :
  exists self' calls p',
    update_sync_info Scenario.quiet Scenario.descriptor Scenario.started
      = Ret tt self' calls /\
    pipeline self' = Some p' /\
    sync_recipients (p_bus p') GST_MESSAGE_ASYNC_DONE = [Cb_bus_cb] /\
    sync_recipients (p_bus p') GST_MESSAGE_ELEMENT = [] /\
    async_recipients (p_bus p') GST_MESSAGE_ELEMENT = [Cb_bus_cb].
Proof.
  destruct (update_sync_info_first_subscription Scenario.quiet
              Scenario.started Scenario.descriptor _
              eq_refl eq_refl eq_refl eq_refl)
    as (self' & calls & p' & Hrun & Hp' & _ & _ & Hdone & Helt & Hasync).
  exists self', calls, p'.
  split; [exact Hrun|]. split; [exact Hp'|]. split; [exact Hdone|].
  split; [exact Helt | exact (Hasync GST_MESSAGE_ELEMENT)].
Defined.

(** C8 (as stated) fails: after the first descriptor, a clock-statistics
    (element) message has no synchronous recipient; [bus_cb] receives it from
    the asynchronous watch only. *)
Lemma clock_statistics_not_synchronous :
  exists calls p',
    update_sync_info Scenario.quiet Scenario.descriptor Scenario.started
      = Ret tt Scenario.attached calls /\
    In (SignalConnect H_bus "sync-message::async-done" Cb_bus_cb) calls /\
    pipeline Scenario.attached = Some p' /\
    ~ In Cb_bus_cb (sync_recipients (p_bus p') GST_MESSAGE_ELEMENT) /\
    In Cb_bus_cb (async_recipients (p_bus p') GST_MESSAGE_ELEMENT).
Proof.
  eexists. eexists.
  split; [vm_compute; reflexivity|].
  split; [vm_compute; auto 12|].
  split; [reflexivity|].
  split; [intros H; exact H | left; reflexivity].
Qed.

(** ** Stop and dispose *)





(** * Further properties of the client *)

Arguments gst_structure_has_name : simpl never.

(** ** One message handled by an attached client *)

Ltac finish_step :=
  eexists; eexists; split; [reflexivity|];
  split; [repeat split; reflexivity|];
  split; [reflexivity|];
  split; [first [ discriminate | reflexivity ]|];
  first [ discriminate
        | intros _; repeat split; simpl; lia ].

Lemma bus_cb_step env m self :
  attached self = true ->
  exists self' calls,
    bus_cb env m self = Ret true self' calls /\
    kept self self' /\
    lock_ok false calls = true /\
    (count is_set_base_time calls = 0%nat ->
     option_map p_base_time (pipeline self')
     = option_map p_base_time (pipeline self)) /\
    (synchronised self = true -> advanced self self' calls).
Proof.
  intros Ha. unfold kept, advanced.
  destruct self as [ca cp [i|] [p|] [k|] cl sy ss]; try discriminate.
  clear Ha.
  destruct m as [src st | src o n pd | src | src | src nm].
  - (* element *)
    unfold bus_cb, update_pipeline, bind, read. simpl.
    destruct sy; [finish_step|]. simpl.
    destruct (gst_structure_has_name st "gst-netclock-statistics");
      simpl; [|finish_step].
    destruct st as [[nm [[|]|]]|]; simpl; try finish_step.
    destruct (wait_for_sync_return env); simpl; [|finish_step].
    destruct (set_state_return env GST_STATE_PAUSED); simpl;
      try destruct (is_live_indeterminate env); simpl; finish_step.
  - (* state-changed *)
    destruct (transition1_fires
                {| control_addr := ca; control_port := cp; info := Some i;
                   pipeline := Some p; clock := Some k; client := cl;
                   synchronised := sy; seek_state := ss |}
                (MsgStateChanged src o n pd)) eqn:Hf.
    + rewrite (bus_cb_transition1 env _ _ p i k Hf eq_refl eq_refl eq_refl).
      assert (Hs : ss = NEED_SEEK).
      { simpl in Hf. destruct ss; simpl in Hf; try discriminate. reflexivity. }
      subst ss.
      destruct (drift env i >? DEFAULT_SEEK_TOLERANCE);
        [destruct (seek_simple_return env (seek_position env i))|];
        destruct sy; finish_step.
    + rewrite (bus_cb_state_changed_ignored env _ src o n pd Hf).
      destruct sy, ss; finish_step.
  - (* async-done *)
    unfold bus_cb, bind, read, g_atomic_int_get. simpl.
    destruct ss; simpl; try (destruct sy; finish_step).
    destruct (query_position_return env); simpl; destruct sy; finish_step.
  - (* eos *)
    unfold bus_cb, bind, read. simpl.
    destruct (ptr_eqb src (Some (p_id p))); simpl; destruct sy, ss; finish_step.
  - destruct sy, ss; finish_step.
Qed.

Lemma lock_ok_app a : forall held b,
  lock_ok held a = true -> lock_ok false b = true ->
  lock_ok held (a ++ b) = true.
Proof.
  induction a as [| c a IH]; intros held b Ha Hb.
  - simpl in *. destruct held; [discriminate | exact Hb].
  - destruct c, held; simpl in *; try discriminate; apply IH; assumption.
Qed.

Lemma count_app P a b : count P (a ++ b) = (count P a + count P b)%nat.
Proof. unfold count. rewrite filter_app, length_app. reflexivity. Qed.

Lemma attached_constructed self : attached self = true -> constructed self = true.
Proof.
  unfold attached, constructed.
  destruct (pipeline self), (clock self), (info self); try discriminate;
    reflexivity.
Qed.

(** A descriptor handed to a constructed client. *)
Lemma sync_info_notify_step env d self :
  constructed self = true ->
  exists self' calls,
    sync_info_notify env d self = Ret tt self' calls /\
    attached self' = true /\
    lock_ok false calls = true /\
    client self' = client self /\
    control_addr self' = control_addr self /\
    control_port self' = control_port self /\
    option_map p_id (pipeline self') = option_map p_id (pipeline self) /\
    (attached self = true ->
     option_map p_bus (pipeline self') = option_map p_bus (pipeline self) /\
     clock self' = clock self /\
     count (fun c => match c with BusAddWatch _ => true | _ => false end)
       calls = 0%nat).
Proof.
  intros Hc.
  destruct self as [ca cp [i|] [p|] [k|] cl sy ss]; try discriminate;
    clear Hc; unfold sync_info_notify, update_sync_info, update_pipeline, bind;
    simpl.
  - destruct (negb (String.eqb (uri i) (uri d))
              || negb (base_time i =? base_time d)); simpl.
    + destruct (set_state_return env GST_STATE_PAUSED); simpl;
        eexists; eexists; (split; [reflexivity|]);
        repeat split; reflexivity.
    + eexists; eexists; (split; [reflexivity|]); repeat split; reflexivity.
  - eexists; eexists; (split; [reflexivity|]).
    do 6 (split; [reflexivity|]). discriminate.
  - eexists; eexists; (split; [reflexivity|]).
    do 6 (split; [reflexivity|]). discriminate.
Qed.

(** ** Sessions *)

Lemma session_attached evs : forall self,
  attached self = true ->
  exists self' calls,
    session evs self = Ret tt self' calls /\
    attached self' = true /\
    lock_ok false calls = true /\
    clock self' = clock self /\
    client self' = client self /\
    control_addr self' = control_addr self /\
    control_port self' = control_port self /\
    option_map p_id (pipeline self') = option_map p_id (pipeline self) /\
    option_map p_bus (pipeline self') = option_map p_bus (pipeline self).
Proof.
  induction evs as [| [env d | env m] evs IH]; intros self Ha.
  - exists self, []. repeat split; try reflexivity. exact Ha.
  - destruct (sync_info_notify_step env d self (attached_constructed self Ha))
      as (s1 & c1 & E1 & Ha1 & L1 & Hcl & Hca & Hcp & Hid & Hrest).
    destruct (Hrest Ha) as (Hbus & Hck & _).
    destruct (IH s1 Ha1)
      as (s2 & c2 & E2 & Ha2 & L2 & Hck2 & Hcl2 & Hca2 & Hcp2 & Hid2 & Hbus2).
    exists s2, (c1 ++ c2). simpl. unfold bind. rewrite E1, E2.
    split; [reflexivity|]. split; [exact Ha2|].
    split; [apply lock_ok_app; assumption|].
    repeat split; congruence.
  - destruct (bus_cb_step env m self Ha)
      as (s1 & c1 & E1 & (Ha1 & _ & Hck & Hcl & Hca & Hcp & Hid & Hbus)
          & L1 & _).
    destruct (IH s1 Ha1)
      as (s2 & c2 & E2 & Ha2 & L2 & Hck2 & Hcl2 & Hca2 & Hcp2 & Hid2 & Hbus2).
    exists s2, (c1 ++ c2). simpl. unfold bind. rewrite E1, E2.
    split; [reflexivity|]. split; [exact Ha2|].
    split; [apply lock_ok_app; assumption|].
    repeat split; congruence.
Qed.

(** X1. A session that begins with a descriptor, on a client constructed
    with a pipeline, runs to its end whatever descriptors and bus messages
    follow and whatever the pipeline and the clock answer: no handler
    dereferences a missing descriptor, clock or pipeline.  The client ends up
    holding all three, and the whole call log obeys the locking discipline:
    [info_lock] is never taken twice nor released when free, it is free at
    the end, and every call whose arguments come from the stored descriptor
    is made while it is held. *)
Theorem session_runs_under_lock env d evs self :
  constructed self = true ->
  exists self' calls,
    session (SyncInfo env d :: evs) self = Ret tt self' calls /\
    attached self' = true /\
    lock_ok false calls = true.
Proof.
  intros Hc.
  destruct (sync_info_notify_step env d self Hc)
    as (s1 & c1 & E1 & Ha1 & L1 & _).
  destruct (session_attached evs s1 Ha1) as (s2 & c2 & E2 & Ha2 & L2 & _).
  exists s2, (c1 ++ c2). simpl. unfold bind. rewrite E1, E2.
  split; [reflexivity|]. split; [exact Ha2|].
  apply lock_ok_app; assumption.
Qed.

Lemma session_runs_under_lock_witness :
  exists self' calls,
    session
      [SyncInfo Scenario.quiet Scenario.descriptor;
       BusMessage Scenario.quiet (clock_synchronised_message None);
       BusMessage
         (Scenario.engine (Scenario.ms 2050) GST_STATE_CHANGE_ASYNC true None)
         Scenario.to_playing;
       SyncInfo Scenario.quiet Scenario.far_descriptor]
      Scenario.started = Ret tt self' calls /\
    attached self' = true /\
    lock_ok false calls = true.
Proof.
  exact (session_runs_under_lock Scenario.quiet Scenario.descriptor _
           Scenario.started eq_refl).
Defined.

(** X2. Once the client holds its first descriptor, nothing that follows
    (no later descriptor, whatever clock address and port it names, and no
    bus message) replaces the clock, changes the subscriptions on the bus,
    swaps the pipeline or touches the control client and the control
    endpoint. *)
Theorem session_keeps_clock_and_subscription evs self :
  attached self = true ->
  exists self' calls,
    session evs self = Ret tt self' calls /\
    clock self' = clock self /\
    option_map p_bus (pipeline self') = option_map p_bus (pipeline self) /\
    option_map p_id (pipeline self') = option_map p_id (pipeline self) /\
    client self' = client self /\
    control_addr self' = control_addr self /\
    control_port self' = control_port self.
Proof.
  intros Ha.
  destruct (session_attached evs self Ha)
    as (s & c & E & _ & _ & Hck & Hcl & Hca & Hcp & Hid & Hbus).
  exists s, c. repeat split; assumption.
Qed.

Lemma session_keeps_clock_and_subscription_witness :
  exists self' calls,
    session
      [SyncInfo Scenario.quiet Scenario.far_descriptor;
       BusMessage Scenario.quiet (clock_synchronised_message None)]
      Scenario.attached = Ret tt self' calls /\
    clock self' = clock Scenario.attached /\
    option_map p_bus (pipeline self')
    = option_map p_bus (pipeline Scenario.attached).
Proof.
  destruct (session_keeps_clock_and_subscription
              [SyncInfo Scenario.quiet Scenario.far_descriptor;
               BusMessage Scenario.quiet (clock_synchronised_message None)]
              Scenario.attached eq_refl)
    as (s & c & E & Hck & Hbus & _).
  exists s, c. repeat split; assumption.
Defined.

(** ** One application of the descriptor *)

Lemma bus_dispatch_synchronised evs : forall self,
  attached self = true -> synchronised self = true ->
  exists self' calls,
    bus_dispatch evs self = Ret tt self' calls /\
    attached self' = true /\
    synchronised self' = true /\
    info self' = info self /\
    (seek_rank (seek_state self) <= seek_rank (seek_state self'))%nat /\
    (count is_seek calls + seeks_left (seek_state self')
     <= seeks_left (seek_state self))%nat /\
    (count is_set_base_time calls + rebases_left (seek_state self')
     <= rebases_left (seek_state self))%nat /\
    (count is_set_base_time calls = 0%nat ->
     option_map p_base_time (pipeline self')
     = option_map p_base_time (pipeline self)).
Proof.
  induction evs as [| [env m] evs IH]; intros self Ha Hs.
  - exists self, []. simpl. repeat split; try reflexivity; try assumption; lia.
  - destruct (bus_cb_step env m self Ha)
      as (s1 & c1 & E1 & (Ha1 & Hi1 & _) & _ & Hb1 & Hadv).
    destruct (Hadv Hs) as (Hs1 & Hr1 & Hk1 & Hn1).
    destruct (IH s1 Ha1 Hs1)
      as (s2 & c2 & E2 & Ha2 & Hs2 & Hi2 & Hr2 & Hk2 & Hn2 & Hb2).
    exists s2, (c1 ++ c2). simpl. unfold bind. rewrite E1, E2.
    rewrite !count_app.
    split; [reflexivity|]. split; [exact Ha2|]. split; [exact Hs2|].
    split; [congruence|]. split; [lia|]. split; [lia|]. split; [lia|].
    intros H0. rewrite Hb2 by lia. apply Hb1. lia.
Qed.

(** X3. Between two applications of a descriptor (the client attached and
    synchronised, so that clock-statistics messages are ignored), whatever
    bus messages arrive and whatever the pipeline answers: [seek_state] never
    moves backwards; at most one seek is issued, and only from NEED_SEEK; the
    base time is set at most once, and never from DONE_SEEK; the stored
    descriptor is untouched. *)
Theorem bus_dispatch_one_seek_one_base_time evs self :
  attached self = true -> synchronised self = true ->
  exists self' calls,
    bus_dispatch evs self = Ret tt self' calls /\
    (seek_rank (seek_state self) <= seek_rank (seek_state self'))%nat /\
    (count is_seek calls <= seeks_left (seek_state self))%nat /\
    (count is_set_base_time calls <= rebases_left (seek_state self))%nat /\
    (count is_seek calls <= 1)%nat /\
    (count is_set_base_time calls <= 1)%nat /\
    info self' = info self.
Proof.
  intros Ha Hs.
  destruct (bus_dispatch_synchronised evs self Ha Hs)
    as (s & c & E & _ & _ & Hi & Hr & Hk & Hn & _).
  exists s, c. split; [exact E|]. split; [exact Hr|].
  assert (seeks_left (seek_state self) <= 1)%nat
    by (destruct (seek_state self); simpl; lia).
  assert (rebases_left (seek_state self) <= 1)%nat
    by (destruct (seek_state self); simpl; lia).
  repeat split; try lia. exact Hi.
Qed.

Lemma bus_dispatch_one_seek_one_base_time_witness :
  exists self' calls,
    bus_dispatch
      [(Scenario.engine (Scenario.ms 2050) GST_STATE_CHANGE_ASYNC true None,
        Scenario.to_playing);
       (Scenario.engine (Scenario.ms 2060) GST_STATE_CHANGE_ASYNC true None,
        Scenario.to_playing);
       (Scenario.engine 0 GST_STATE_CHANGE_ASYNC true (Some (Scenario.ms 205)),
        MsgAsyncDone (Some 7%N));
       (Scenario.engine 0 GST_STATE_CHANGE_ASYNC true (Some (Scenario.ms 300)),
        MsgAsyncDone (Some 7%N))]
      Scenario.applied = Ret tt self' calls /\
    (count is_seek calls <= 1)%nat /\
    (count is_set_base_time calls <= 1)%nat.
Proof.
  destruct (bus_dispatch_one_seek_one_base_time
              [(Scenario.engine (Scenario.ms 2050) GST_STATE_CHANGE_ASYNC true
                  None, Scenario.to_playing);
               (Scenario.engine (Scenario.ms 2060) GST_STATE_CHANGE_ASYNC true
                  None, Scenario.to_playing);
               (Scenario.engine 0 GST_STATE_CHANGE_ASYNC true
                  (Some (Scenario.ms 205)), MsgAsyncDone (Some 7%N));
               (Scenario.engine 0 GST_STATE_CHANGE_ASYNC true
                  (Some (Scenario.ms 300)), MsgAsyncDone (Some 7%N))]
              Scenario.applied eq_refl eq_refl)
    as (s & c & E & _ & _ & _ & Hk & Hn & _).
  exists s, c. repeat split; assumption.
Defined.

(** ** The clock-statistics handler *)

Lemma has_name_of_report st :
  reports_synchronised st = true ->
  gst_structure_has_name st "gst-netclock-statistics" = true /\
  exists nm, st = Some (nm, Some true).
Proof.
  unfold reports_synchronised. intros H. apply andb_prop in H as [H1 H2].
  split; [exact H1|].
  destruct st as [[nm [[|]|]]|]; try discriminate. exists nm. reflexivity.
Qed.

Lemma bus_cb_clock_report env self src st p i k :
  synchronised self = false ->
  pipeline self = Some p -> info self = Some i -> clock self = Some k ->
  reports_synchronised st = true ->
  bus_cb env (MsgElement src st) self =
    if wait_for_sync_return env then
      Ret true
        (set_seek_state (classified env (set_state_return env GST_STATE_PAUSED))
           (set_pipeline (Some (configured i p)) (set_synchronised true self)))
        (calls_clock_synchronised env i)
    else Ret true self calls_clock_timeout.
Proof.
  intros Hs Hp Hi Hk Hr.
  destruct (has_name_of_report st Hr) as [Hn [nm ->]].
  destruct self as [ca cp inf pl ck cl sy ss].
  simpl in Hs, Hp, Hi, Hk. subst.
  unfold bus_cb, update_pipeline, calls_clock_synchronised,
    calls_update_pipeline, bind, read. simpl.
  rewrite Hn. simpl.
  destruct (wait_for_sync_return env); simpl; [|reflexivity].
  destruct (set_state_return env GST_STATE_PAUSED); reflexivity.
Qed.

(** X4. The first clock-statistics message that reports synchronisation
    makes the client wait for the clock (10 seconds at most); when the wait
    succeeds the flag is latched and the stored descriptor is applied under
    the lock: locator and latency go to the pipeline, PAUSED is requested,
    [seek_state] is classified and PLAYING is requested.  For any PAUSED
    answer other than failure and no-preroll the source counts as seekable:
    [seek_state] is NEED_SEEK.  Base time and start time of the pipeline are
    not touched at this point. *)
Theorem bus_cb_clock_synchronised env self src st p i k :
  synchronised self = false ->
  pipeline self = Some p -> info self = Some i -> clock self = Some k ->
  reports_synchronised st = true ->
  wait_for_sync_return env = true ->
  exists self' p',
    bus_cb env (MsgElement src st) self
      = Ret true self' (calls_clock_synchronised env i) /\
    hd_error (calls_clock_synchronised env i)
      = Some (ClockWaitForSync 10000000000) /\
    synchronised self' = true /\
    info self' = Some i /\
    pipeline self' = Some p' /\
    p_uri p' = Some (uri i) /\
    p_latency p' = latency i /\
    p_base_time p' = p_base_time p /\
    p_start_time p' = p_start_time p /\
    seek_state self'
      = classified env (set_state_return env GST_STATE_PAUSED) /\
    (set_state_return env GST_STATE_PAUSED <> GST_STATE_CHANGE_FAILURE ->
     set_state_return env GST_STATE_PAUSED <> GST_STATE_CHANGE_NO_PREROLL ->
     seek_state self' = NEED_SEEK).
Proof.
  intros Hs Hp Hi Hk Hr Hw.
  rewrite (bus_cb_clock_report env self src st p i k Hs Hp Hi Hk Hr), Hw.
  eexists. exists (configured i p).
  split; [reflexivity|]. split; [reflexivity|].
  do 2 (split; [first [reflexivity | assumption]|]).
  do 6 (split; [reflexivity|]).
  simpl. destruct (set_state_return env GST_STATE_PAUSED); simpl;
    intros H1 H2; try reflexivity; exfalso; auto.
Qed.

Lemma bus_cb_clock_synchronised_witness :
  exists self' p',
    bus_cb Scenario.quiet (clock_synchronised_message None) Scenario.attached
      = Ret true self'
          (calls_clock_synchronised Scenario.quiet Scenario.descriptor) /\
    synchronised self' = true /\
    pipeline self' = Some p' /\
    p_uri p' = Some (uri Scenario.descriptor) /\
    seek_state self' = NEED_SEEK.
Proof.
  destruct (bus_cb_clock_synchronised Scenario.quiet Scenario.attached None
              (Some ("gst-netclock-statistics"%string, Some true))
              _ Scenario.descriptor _
              eq_refl eq_refl eq_refl eq_refl eq_refl eq_refl)
    as (s & p' & E & _ & Hs & _ & Hp & Hu & _ & _ & _ & _ & Hn).
  exists s, p'. split; [exact E|]. split; [exact Hs|]. split; [exact Hp|].
  split; [exact Hu|]. apply Hn; by_eval.
Defined.

(** X5. When the wait for the clock times out, the handler logs an error
    and takes the flag back: the client is exactly as before the message and
    nothing is asked of the pipeline.  Since the flag is down again, the next
    report of synchronisation is examined afresh, and applies the descriptor
    if the wait then succeeds. *)
Theorem bus_cb_clock_timeout_then_retry env1 env2 self src st p i k :
  synchronised self = false ->
  pipeline self = Some p -> info self = Some i -> clock self = Some k ->
  reports_synchronised st = true ->
  wait_for_sync_return env1 = false ->
  wait_for_sync_return env2 = true ->
  bus_cb env1 (MsgElement src st) self = Ret true self calls_clock_timeout /\
  existsb is_engine_call calls_clock_timeout = false /\
  exists self',
    bus_dispatch [(env1, MsgElement src st); (env2, MsgElement src st)] self
      = Ret tt self' (calls_clock_timeout ++ calls_clock_synchronised env2 i) /\
    synchronised self' = true /\
    seek_state self'
      = classified env2 (set_state_return env2 GST_STATE_PAUSED).
Proof.
  intros Hs Hp Hi Hk Hr Hw1 Hw2.
  pose proof (bus_cb_clock_report env1 self src st p i k Hs Hp Hi Hk Hr) as E1.
  pose proof (bus_cb_clock_report env2 self src st p i k Hs Hp Hi Hk Hr) as E2.
  rewrite Hw1 in E1. rewrite Hw2 in E2.
  split; [exact E1|]. split; [reflexivity|].
  eexists. cbn [bus_dispatch]. unfold bind at 1 2. rewrite E1, E2.
  cbn [ret]. rewrite app_nil_r. split; [reflexivity|]. split; reflexivity.
Qed.

Lemma bus_cb_clock_timeout_then_retry_witness :
  bus_cb
    {| set_state_return := fun _ => GST_STATE_CHANGE_ASYNC;
       seek_simple_return := fun _ => true; query_position_return := None;
       clock_time := 0; wait_for_sync_return := false;
       control_start_return := true; is_live_indeterminate := false |}
    (clock_synchronised_message None) Scenario.attached
  = Ret true Scenario.attached calls_clock_timeout.
Proof.
  exact (proj1 (bus_cb_clock_timeout_then_retry
                  {| set_state_return := fun _ => GST_STATE_CHANGE_ASYNC;
                     seek_simple_return := fun _ => true;
                     query_position_return := None;
                     clock_time := 0; wait_for_sync_return := false;
                     control_start_return := true;
                     is_live_indeterminate := false |}
                  Scenario.quiet Scenario.attached None
                  (Some ("gst-netclock-statistics"%string, Some true))
                  _ Scenario.descriptor _
                  eq_refl eq_refl eq_refl eq_refl eq_refl eq_refl eq_refl)).
Defined.

(** X6. An element message leaves the client as it is, with no call at
    all, when the client is already synchronised (the flag is a latch) or
    when the message is not a report of synchronisation: no structure,
    another structure name, or a [synchronised] field that is absent or
    false. *)
Theorem bus_cb_element_ignored env self src st :
  synchronised self = true \/ reports_synchronised st = false ->
  bus_cb env (MsgElement src st) self = Ret true self [].
Proof.
  intros H. destruct self as [ca cp inf pl ck cl sy ss].
  unfold bus_cb, bind, read. simpl.
  destruct sy; [reflexivity|].
  destruct H as [H | H]; [discriminate|].
  unfold reports_synchronised in H.
  destruct (gst_structure_has_name st "gst-netclock-statistics");
    [|reflexivity].
  destruct st as [[nm [[|]|]]|]; try discriminate; reflexivity.
Qed.

Lemma bus_cb_element_ignored_witness :
  bus_cb Scenario.quiet
    (MsgElement None (Some ("gst-netclock-statistics"%string, Some false)))
    Scenario.attached = Ret true Scenario.attached [] /\
  bus_cb Scenario.quiet (clock_synchronised_message None) Scenario.applied
    = Ret true Scenario.applied [].
Proof.
  split.
  - exact (bus_cb_element_ignored Scenario.quiet Scenario.attached None
             (Some ("gst-netclock-statistics"%string, Some false))
             (or_intror eq_refl)).
  - exact (bus_cb_element_ignored Scenario.quiet Scenario.applied None
             (Some ("gst-netclock-statistics"%string, Some true))
             (or_introl eq_refl)).
Defined.

(** X7. A live source is never seeked and never given a base time.  When
    the PAUSED request of the descriptor's application answers no-preroll,
    [seek_state] is DONE_SEEK at once, and whatever bus messages follow,
    with whatever drift, the client issues no seek, never sets the
    pipeline's base time, and [seek_state] stays DONE_SEEK. *)
Theorem live_source_never_seeked env self src st p i k evs :
  synchronised self = false ->
  pipeline self = Some p -> info self = Some i -> clock self = Some k ->
  reports_synchronised st = true ->
  wait_for_sync_return env = true ->
  set_state_return env GST_STATE_PAUSED = GST_STATE_CHANGE_NO_PREROLL ->
  exists self' calls,
    bus_dispatch ((env, MsgElement src st) :: evs) self
      = Ret tt self' calls /\
    count is_seek calls = 0%nat /\
    count is_set_base_time calls = 0%nat /\
    seek_state self' = DONE_SEEK /\
    option_map p_base_time (pipeline self') = Some (p_base_time p).
Proof.
  intros Hs Hp Hi Hk Hr Hw Hlive.
  pose proof (bus_cb_clock_report env self src st p i k Hs Hp Hi Hk Hr) as E1.
  rewrite Hw, Hlive in E1. cbn [classified] in E1.
  set (s1 := set_seek_state DONE_SEEK
               (set_pipeline (Some (configured i p))
                  (set_synchronised true self))) in *.
  assert (Ha1 : attached s1 = true).
  { unfold attached, s1. simpl. rewrite Hk, Hi. reflexivity. }
  destruct (bus_dispatch_synchronised evs s1 Ha1 eq_refl)
    as (s2 & c2 & E2 & _ & _ & _ & Hrank & Hseek & Hbase & Hsame).
  simpl in Hrank, Hseek, Hbase.
  exists s2, (calls_clock_synchronised env i ++ c2).
  cbn [bus_dispatch]. unfold bind. rewrite E1, E2.
  split; [reflexivity|].
  assert (Hc1 : count is_seek (calls_clock_synchronised env i) = 0%nat
                /\ count is_set_base_time (calls_clock_synchronised env i)
                   = 0%nat).
  { unfold calls_clock_synchronised, calls_update_pipeline.
    rewrite Hlive. split; reflexivity. }
  rewrite !count_app. destruct Hc1 as [-> ->].
  split; [lia|]. split; [lia|]. split.
  - destruct (seek_state s2); simpl in Hrank; try lia. reflexivity.
  - rewrite Hsame by lia. reflexivity.
Qed.

Lemma live_source_never_seeked_witness :
  exists self' calls,
    bus_dispatch
      [(Scenario.engine 0 GST_STATE_CHANGE_NO_PREROLL true None,
        clock_synchronised_message None);
       (Scenario.engine (Scenario.ms 2050) GST_STATE_CHANGE_ASYNC true None,
        Scenario.to_playing)]
      Scenario.attached = Ret tt self' calls /\
    count is_seek calls = 0%nat /\
    seek_state self' = DONE_SEEK.
Proof.
  destruct (live_source_never_seeked
              (Scenario.engine 0 GST_STATE_CHANGE_NO_PREROLL true None)
              Scenario.attached None
              (Some ("gst-netclock-statistics"%string, Some true))
              _ Scenario.descriptor _
              [(Scenario.engine (Scenario.ms 2050) GST_STATE_CHANGE_ASYNC true
                  None, Scenario.to_playing)]
              eq_refl eq_refl eq_refl eq_refl eq_refl eq_refl eq_refl)
    as (s & c & E & Hk & _ & Hd & _).
  exists s, c. repeat split; assumption.
Defined.

(** ** End of stream, and messages of other elements *)

Lemma ptr_eqb_neq src id : src <> Some id -> ptr_eqb src (Some id) = false.
Proof.
  destruct src as [x|]; simpl; [|reflexivity].
  intros H. apply N.eqb_neq. intros ->. apply H. reflexivity.
Qed.

Lemma bus_cb_eos env self src p :
  pipeline self = Some p ->
  bus_cb env (MsgEos src) self =
    Ret true self
      (if ptr_eqb src (Some (p_id p))
       then [ElementSetState GST_STATE_NULL] else []).
Proof.
  intros Hp. destruct self as [ca cp inf pl ck cl sy ss].
  simpl in Hp. subst. unfold bus_cb, bind, read. simpl.
  destruct (ptr_eqb src (Some (p_id p))); reflexivity.
Qed.

(** X8. At the end of the stream of its own pipeline the client sends the
    pipeline to NULL and changes nothing in itself: the stored descriptor
    stays.  So when the same descriptor (same locator and base time) arrives
    afterwards it is discarded like any repeated descriptor, and the pipeline
    is left in NULL; only a descriptor that differs restarts playback. *)
Theorem eos_then_same_descriptor_stays_stopped env env' self p i d :
  pipeline self = Some p -> info self = Some i ->
  uri i = uri d -> base_time i = base_time d ->
  session [BusMessage env (MsgEos (Some (p_id p))); SyncInfo env' d] self
    = Ret tt self
        [ElementSetState GST_STATE_NULL;
         Log LOG_INFO "Got sync information, URI is :%s";
         MutexLock; MutexUnlock].
Proof.
  intros Hp Hi Hu Hb. cbn [session]. unfold bind at 1 2.
  rewrite (bus_cb_eos env self _ p Hp).
  simpl ptr_eqb. rewrite N.eqb_refl.
  destruct self as [ca cp inf pl ck cl sy ss]. simpl in Hp, Hi. subst.
  unfold sync_info_notify, update_sync_info, bind. simpl.
  rewrite Hu, Hb, String.eqb_refl, Z.eqb_refl. reflexivity.
Qed.

Lemma eos_then_same_descriptor_stays_stopped_witness :
  session [BusMessage Scenario.quiet (MsgEos (Some 7%N));
           SyncInfo Scenario.quiet Scenario.descriptor] Scenario.applied
    = Ret tt Scenario.applied
        [ElementSetState GST_STATE_NULL;
         Log LOG_INFO "Got sync information, URI is :%s";
         MutexLock; MutexUnlock].
Proof.
  exact (eos_then_same_descriptor_stays_stopped Scenario.quiet Scenario.quiet
           Scenario.applied _ Scenario.descriptor Scenario.descriptor
           eq_refl eq_refl eq_refl eq_refl).
Defined.

(** X9. State-changed and end-of-stream messages posted by any other
    object than the client's own pipeline (its child elements, for
    instance) are ignored: no call, client unchanged, whatever the states
    they report and whatever [seek_state] is. *)
Theorem bus_cb_foreign_source_ignored env self p src o n pd :
  pipeline self = Some p -> src <> Some (p_id p) ->
  bus_cb env (MsgStateChanged src o n pd) self = Ret true self [] /\
  bus_cb env (MsgEos src) self = Ret true self [].
Proof.
  intros Hp Hsrc. pose proof (ptr_eqb_neq src (p_id p) Hsrc) as E. split.
  - apply bus_cb_state_changed_ignored. simpl. rewrite Hp. simpl. rewrite E.
    rewrite andb_false_r. reflexivity.
  - rewrite (bus_cb_eos env self src p Hp), E. reflexivity.
Qed.

Lemma bus_cb_foreign_source_ignored_witness :
  bus_cb (Scenario.engine (Scenario.ms 2050) GST_STATE_CHANGE_ASYNC true None)
    (MsgStateChanged (Some 8%N) GST_STATE_PAUSED GST_STATE_PLAYING
       GST_STATE_VOID_PENDING) Scenario.applied
  = Ret true Scenario.applied [].
Proof.
  refine (proj1 (bus_cb_foreign_source_ignored _ Scenario.applied _
                   (Some 8%N) _ _ _ eq_refl _)).
  discriminate.
Defined.

(** ** Async-done *)

(** X10. The async-done handler acts once per seek.  Outside IN_SEEK an
    async-done message is ignored without even querying the position.  In
    IN_SEEK it is handled whatever object posted it, and a second delivery
    of the message ([bus_cb] is connected both to the synchronous signal and
    as the bus watch) finds DONE_SEEK and adds nothing: the base time set by
    the first delivery stands, even if the position has moved on. *)
Theorem bus_cb_async_done_once env env' self src src' p i :
  pipeline self = Some p -> info self = Some i ->
  (seek_state self <> IN_SEEK ->
   bus_cb env (MsgAsyncDone src) self = Ret true self []) /\
  (seek_state self = IN_SEEK ->
   exists self1 calls1,
     bus_cb env (MsgAsyncDone src) self = Ret true self1 calls1 /\
     bus_dispatch [(env, MsgAsyncDone src); (env', MsgAsyncDone src')] self
       = Ret tt self1 calls1).
Proof.
  intros Hp Hi. split.
  - intros Hs. destruct self as [ca cp inf pl ck cl sy ss]. simpl in *.
    unfold bus_cb, bind, read, g_atomic_int_get. simpl.
    destruct ss; try reflexivity. exfalso. apply Hs. reflexivity.
  - intros Hs.
    pose proof (bus_cb_async_done env self src p i Hs Hp Hi) as E.
    destruct self as [ca cp inf pl ck cl sy ss]. simpl in Hp, Hi, Hs. subst.
    destruct (query_position_return env) as [pos|];
      eexists; eexists; (split; [exact E|]);
      cbn [bus_dispatch]; unfold bind at 1; rewrite E; reflexivity.
Qed.

Lemma bus_cb_async_done_once_witness :
  exists self1 calls1,
    bus_cb (Scenario.engine 0 GST_STATE_CHANGE_ASYNC true
              (Some (Scenario.ms 205)))
      (MsgAsyncDone (Some 7%N)) Scenario.seeking = Ret true self1 calls1 /\
    bus_dispatch
      [(Scenario.engine 0 GST_STATE_CHANGE_ASYNC true (Some (Scenario.ms 205)),
        MsgAsyncDone (Some 7%N));
       (Scenario.engine 0 GST_STATE_CHANGE_ASYNC true (Some (Scenario.ms 900)),
        MsgAsyncDone (Some 7%N))] Scenario.seeking
      = Ret tt self1 calls1.
Proof.
  exact (proj2 (bus_cb_async_done_once
                  (Scenario.engine 0 GST_STATE_CHANGE_ASYNC true
                     (Some (Scenario.ms 205)))
                  (Scenario.engine 0 GST_STATE_CHANGE_ASYNC true
                     (Some (Scenario.ms 900)))
                  Scenario.seeking (Some 7%N) (Some 7%N) _ Scenario.descriptor
                  eq_refl eq_refl) eq_refl).
Defined.

(** ** Descriptors *)

Lemma update_sync_info_first_runs env d self p :
  info self = None -> pipeline self = Some p ->
  update_sync_info env d self =
    Ret tt
      (set_pipeline (Some (subscribed p))
         (set_clock (Some (clock_for d)) (set_info (Some d) self)))
      (calls_first_descriptor d).
Proof.
  intros Hi Hp. destruct self as [ca cp inf pl ck cl sy ss].
  simpl in Hi, Hp. subst. reflexivity.
Qed.

(** X11. The first descriptor only prepares: it is stored, a network clock
    named ["sync-server-clock"] is created for the descriptor's clock address
    and port, given the pipeline's bus, and made the pipeline's clock.
    Playback is not started: no state change is requested, the locator is
    not set, and [seek_state] and the synchronised flag are as they were;
    the outcome does not depend on what the pipeline or the clock
    answer. *)
Theorem update_sync_info_first_prepares env env' d self p :
  info self = None -> pipeline self = Some p ->
  exists self' calls p',
    update_sync_info env d self = Ret tt self' calls /\
    update_sync_info env' d self = Ret tt self' calls /\
    info self' = Some d /\
    clock self' = Some (clock_for d) /\
    In (NetClientClockNew "sync-server-clock" (clock_addr d) (clock_port d))
      calls /\
    pipeline self' = Some p' /\
    p_use_clock p' = true /\
    p_uri p' = p_uri p /\
    count is_state_request calls = 0%nat /\
    count is_set_uri calls = 0%nat /\
    seek_state self' = seek_state self /\
    synchronised self' = synchronised self.
Proof.
  intros Hi Hp. destruct self as [ca cp inf pl ck cl sy ss].
  simpl in Hi, Hp. subst.
  eexists. eexists. eexists.
  split; [unfold update_sync_info, bind; simpl; reflexivity|].
  split; [reflexivity|].
  do 2 (split; [reflexivity|]).
  split; [simpl; auto|].
  repeat split; reflexivity.
Qed.

Lemma update_sync_info_first_prepares_witness :
  exists self' calls,
    update_sync_info Scenario.quiet Scenario.descriptor Scenario.started
      = Ret tt self' calls /\
    clock self' = Some (clock_for Scenario.descriptor) /\
    count is_state_request calls = 0%nat.
Proof.
  destruct (update_sync_info_first_prepares Scenario.quiet Scenario.quiet
              Scenario.descriptor Scenario.started _ eq_refl eq_refl)
    as (s & c & p' & E & _ & _ & Hk & _ & _ & _ & _ & Hn & _).
  exists s, c. repeat split; assumption.
Defined.

Lemma update_sync_info_same env self old d :
  info self = Some old ->
  uri old = uri d -> base_time old = base_time d ->
  update_sync_info env d self = Ret tt self [MutexLock; MutexUnlock].
Proof.
  intros Hi Hu Hb. destruct self as [ca cp inf pl ck cl sy ss].
  simpl in Hi. subst. unfold update_sync_info, bind. simpl.
  rewrite Hu, Hb, String.eqb_refl, Z.eqb_refl. reflexivity.
Qed.

(** X12. Handing over the same descriptor twice is the same as handing it
    over once: whatever the first hand-over did (first descriptor, changed
    descriptor or repeated descriptor), the second one only takes and
    releases the lock. *)
Theorem update_sync_info_twice env env' d self :
  constructed self = true ->
  exists self' calls,
    update_sync_info env d self = Ret tt self' calls /\
    update_sync_info env' d self' = Ret tt self' [MutexLock; MutexUnlock].
Proof.
  intros Hc.
  destruct self as [ca cp [i|] [p|] [k|] cl sy ss]; try discriminate; clear Hc.
  - destruct (negb (String.eqb (uri i) (uri d))
              || negb (base_time i =? base_time d)) eqn:Hd.
    + unfold update_sync_info at 1. unfold update_pipeline, bind. simpl.
      rewrite Hd. simpl.
      destruct (set_state_return env GST_STATE_PAUSED); simpl;
        eexists; eexists; (split; [reflexivity|]);
        apply (update_sync_info_same env' _ d d); reflexivity.
    + apply orb_false_elim in Hd as [Hu Hb].
      apply negb_false_iff in Hu, Hb.
      apply String.eqb_eq in Hu. apply Z.eqb_eq in Hb.
      exists {| control_addr := ca; control_port := cp; info := Some i;
                pipeline := Some p; clock := Some k; client := cl;
                synchronised := sy; seek_state := ss |}.
      exists [MutexLock; MutexUnlock].
      split; apply (update_sync_info_same _ _ i d); assumption || reflexivity.
  - eexists; eexists;
      (split; [unfold update_sync_info, bind; simpl; reflexivity|]).
    apply (update_sync_info_same env' _ d d); reflexivity.
  - eexists; eexists;
      (split; [unfold update_sync_info, bind; simpl; reflexivity|]).
    apply (update_sync_info_same env' _ d d); reflexivity.
Qed.

Lemma update_sync_info_twice_witness :
  exists self' calls,
    update_sync_info Scenario.quiet Scenario.far_descriptor Scenario.applied
      = Ret tt self' calls /\
    update_sync_info Scenario.quiet Scenario.far_descriptor self'
      = Ret tt self' [MutexLock; MutexUnlock].
Proof.
  exact (update_sync_info_twice Scenario.quiet Scenario.quiet
           Scenario.far_descriptor Scenario.applied eq_refl).
Defined.

(** ** Object properties *)

Lemma holds_inv property_id v :
  holds property_id v = true ->
  match v with
  | GString _ => property_id = PROP_CONTROL_ADDRESS
  | GInt _ => property_id = PROP_CONTROL_PORT
  | GObjectValue _ => property_id = PROP_PIPELINE
  end.
Proof. destruct v; simpl; intros H; apply Z.eqb_eq in H; exact H. Qed.

(** X13. Setting a property and reading it back gives the value that was
    set, for each of the three properties (control address, control port,
    pipeline) and any value of the property's type.  Setting releases the
    value it replaces exactly when there is one (the old address is freed,
    the old pipeline unreferenced), changes no other field of the client,
    and reading changes nothing. *)
Theorem set_property_get_property property_id v out self :
  holds property_id v = true -> holds property_id out = true ->
  gst_sync_client_set_property property_id v self
    = Ret tt (with_property v self) (calls_set_property self v) /\
  gst_sync_client_get_property property_id out (with_property v self)
    = Ret v (with_property v self) [] /\
  info (with_property v self) = info self /\
  clock (with_property v self) = clock self /\
  client (with_property v self) = client self /\
  synchronised (with_property v self) = synchronised self /\
  seek_state (with_property v self) = seek_state self.
Proof.
  intros Hv Ho.
  pose proof (holds_inv _ _ Hv) as Ev. pose proof (holds_inv _ _ Ho) as Eo.
  destruct self as [ca cp inf pl ck cl sy ss].
  destruct v as [s | n | o], out as [s' | n' | o']; subst;
    try discriminate;
    unfold gst_sync_client_set_property, gst_sync_client_get_property,
      bind, read; simpl;
    try (destruct ca; repeat split; reflexivity);
    try (destruct pl; repeat split; reflexivity);
    repeat split; reflexivity.
Qed.

Lemma set_property_get_property_witness :
  gst_sync_client_set_property PROP_CONTROL_ADDRESS
    (GString (Some "10.0.0.9"%string)) Scenario.fresh
    = Ret tt (with_property (GString (Some "10.0.0.9"%string)) Scenario.fresh)
        [Free] /\
  gst_sync_client_get_property PROP_CONTROL_ADDRESS (GString None)
    (with_property (GString (Some "10.0.0.9"%string)) Scenario.fresh)
    = Ret (GString (Some "10.0.0.9"%string))
        (with_property (GString (Some "10.0.0.9"%string)) Scenario.fresh) [].
Proof.
  destruct (set_property_get_property PROP_CONTROL_ADDRESS
              (GString (Some "10.0.0.9"%string)) (GString None)
              Scenario.fresh eq_refl eq_refl) as (Hset & Hget & _).
  split; [exact Hset | exact Hget].
Defined.

(** X14. An id that names none of the three properties (0 included) is
    refused by both accessors with a warning: setting changes nothing in the
    client, reading leaves the caller's value as it was. *)
Theorem invalid_property_id_refused property_id v out self :
  property_id <> PROP_CONTROL_ADDRESS ->
  property_id <> PROP_CONTROL_PORT ->
  property_id <> PROP_PIPELINE ->
  gst_sync_client_set_property property_id v self
    = Ret tt self [invalid_property_id] /\
  gst_sync_client_get_property property_id out self
    = Ret out self [invalid_property_id].
Proof.
  intros H1 H2 H3.
  apply Z.eqb_neq in H1, H2, H3.
  unfold gst_sync_client_set_property, gst_sync_client_get_property.
  rewrite H1, H2, H3. split; reflexivity.
Qed.

Lemma invalid_property_id_refused_witness :
  gst_sync_client_set_property PROP_0 (GInt 80) Scenario.fresh
    = Ret tt Scenario.fresh [invalid_property_id] /\
  gst_sync_client_get_property PROP_0 (GInt 80) Scenario.fresh
    = Ret (GInt 80) Scenario.fresh [invalid_property_id].
Proof.
  apply (invalid_property_id_refused PROP_0 (GInt 80) (GInt 80)
           Scenario.fresh); discriminate.
Defined.

(** ** Construction, start and stop *)

(** X15. A client made by [gst_sync_client_new] with a port in the range
    of the [control-port] property (0 to 65535) is the initialised instance
    with the three construct properties set through
    [gst_sync_client_set_property], nothing being released on the way.  It
    gives its arguments back through [gst_sync_client_get_property]; it holds
    no descriptor, no clock and no control client, is not synchronised, and
    its [seek_state] is NEED_SEEK.  A port outside the range is not set: the
    client keeps the default port. *)
Theorem gst_sync_client_new_properties addr port p :
  0 <= port <= 65535 ->
  bind (gst_sync_client_set_property PROP_CONTROL_ADDRESS (GString addr))
    (fun _ =>
       bind (gst_sync_client_set_property PROP_CONTROL_PORT (GInt port))
         (fun _ =>
            gst_sync_client_set_property PROP_PIPELINE (GObjectValue p)))
    gst_sync_client_init
    = Ret tt (gst_sync_client_new addr port p) [] /\
  gst_sync_client_get_property PROP_CONTROL_ADDRESS (GString None)
    (gst_sync_client_new addr port p)
    = Ret (GString addr) (gst_sync_client_new addr port p) [] /\
  gst_sync_client_get_property PROP_CONTROL_PORT (GInt 0)
    (gst_sync_client_new addr port p)
    = Ret (GInt port) (gst_sync_client_new addr port p) [] /\
  gst_sync_client_get_property PROP_PIPELINE (GObjectValue None)
    (gst_sync_client_new addr port p)
    = Ret (GObjectValue p) (gst_sync_client_new addr port p) [] /\
  info (gst_sync_client_new addr port p) = None /\
  clock (gst_sync_client_new addr port p) = None /\
  client (gst_sync_client_new addr port p) = None /\
  synchronised (gst_sync_client_new addr port p) = false /\
  seek_state (gst_sync_client_new addr port p) = NEED_SEEK /\
  (forall other, other < 0 \/ 65535 < other ->
     control_port (gst_sync_client_new addr other p) = DEFAULT_PORT).
Proof.
  intros Hport.
  assert (Hv : control_port_valid port = true).
  { unfold control_port_valid, control_port_minimum, control_port_maximum.
    apply andb_true_intro. split; apply Z.leb_le; lia. }
  unfold gst_sync_client_new. rewrite Hv.
  do 9 (split; [reflexivity|]).
  intros other Hother.
  assert (Hn : control_port_valid other = false).
  { unfold control_port_valid, control_port_minimum, control_port_maximum.
    apply andb_false_iff. destruct Hother as [H | H];
      [left; apply Z.leb_gt; lia | right; apply Z.leb_gt; lia]. }
  rewrite Hn. reflexivity.
Qed.

Lemma gst_sync_client_new_properties_witness :
  gst_sync_client_get_property PROP_CONTROL_PORT (GInt 0)
    (gst_sync_client_new (Some "10.0.0.2"%string) 3695 (Some Scenario.pipe))
    = Ret (GInt 3695)
        (gst_sync_client_new (Some "10.0.0.2"%string) 3695 (Some Scenario.pipe))
        [] /\
  control_port
    (gst_sync_client_new (Some "10.0.0.2"%string) 70000 (Some Scenario.pipe))
    = DEFAULT_PORT.
Proof.
  destruct (gst_sync_client_new_properties (Some "10.0.0.2"%string) 3695
              (Some Scenario.pipe) ltac:(lia))
    as (_ & _ & Hget & _ & _ & _ & _ & _ & _ & Hout).
  split; [exact Hget|]. apply Hout. right. lia.
Defined.

(** X16. [gst_sync_client_start] makes a control client for the client's
    control address and port, connects [sync_info_notify] to its
    ["notify::sync-info"] signal, emits ["start"] on it and returns what that
    emission reports.  The control client is installed whether or not the
    start succeeded, a control client already held is replaced without being
    released, and nothing else in the client changes.  A [stop] after
    [start] therefore always reaches a control client. *)
Theorem gst_sync_client_start_then_stop env self :
  exists self',
    gst_sync_client_start env self =
      Ret (control_start_return env) self'
        [ObjectNew (control_addr self) (control_port self);
         SignalConnect H_client "notify::sync-info" Cb_sync_info_notify;
         SignalEmitByName H_client "start"] /\
    self' = set_client (Some (control_client_for self)) self /\
    bind (gst_sync_client_start env) (fun _ => gst_sync_client_stop) self =
      Ret tt self'
        [ObjectNew (control_addr self) (control_port self);
         SignalConnect H_client "notify::sync-info" Cb_sync_info_notify;
         SignalEmitByName H_client "start";
         SignalEmitByName H_client "stop"].
Proof.
  exists (set_client (Some (control_client_for self)) self).
  destruct self as [ca cp inf pl ck cl sy ss].
  repeat split; reflexivity.
Qed.

(** ** The drift, in plain numbers *)

Lemma drift_ahead env i :
  0 <= base_time i <= clock_time env -> clock_time env < 2 ^ 64 ->
  drift env i = clock_time env - base_time i.
Proof.
  intros H1 H2. unfold drift, sub64.
  rewrite (wrap64_small (clock_time env)) by lia.
  apply wrap64_small. lia.
Qed.

Lemma drift_behind env i :
  0 <= clock_time env < base_time i -> base_time i < 2 ^ 64 ->
  drift env i = 2 ^ 64 - (base_time i - clock_time env).
Proof.
  intros H1 H2. unfold drift, sub64.
  rewrite (wrap64_small (clock_time env)) by lia.
  unfold wrap64. symmetry. apply Z.mod_unique with (q := -1); lia.
Qed.

(** X17. With the clock at or past the base time (both being clock times
    below [2^64]), the drift is the plain difference [now - base_time], and
    the firing handler seeks exactly when that difference is more than
    50 000 000 ns; the position the pipeline receives is then the difference
    plus 50 000 000 ns, provided that sum is below [2^63]. *)
Theorem bus_cb_clock_ahead env self m p i k :
  transition1_fires self m = true ->
  pipeline self = Some p -> info self = Some i -> clock self = Some k ->
  0 <= base_time i <= clock_time env -> clock_time env < 2 ^ 64 ->
  drift env i = clock_time env - base_time i /\
  exists self' calls,
    bus_cb env m self = Ret true self' calls /\
    filter is_seek calls =
      (if clock_time env - base_time i >? 50000000 then
         [ElementSeekSimple GST_FORMAT_TIME seek_flags (seek_argument env i)]
       else []) /\
    (clock_time env - base_time i + 50000000 < 2 ^ 63 ->
     seek_argument env i = clock_time env - base_time i + 50000000).
Proof.
  intros Hf Hp Hi Hk Hb Hn.
  pose proof (drift_ahead env i Hb Hn) as Hd.
  split; [exact Hd|].
  rewrite (bus_cb_transition1 env self m p i k Hf Hp Hi Hk).
  rewrite Hd, tolerance_value.
  assert (Hpos : clock_time env - base_time i + 50000000 < 2 ^ 63 ->
                 seek_argument env i
                 = clock_time env - base_time i + 50000000).
  { intros Hfit. rewrite <- Hd, <- tolerance_value.
    apply seek_argument_exact. rewrite Hd, tolerance_value. exact Hfit. }
  destruct (clock_time env - base_time i >? 50000000);
    [destruct (seek_simple_return env (seek_position env i))|];
    eexists; eexists; (split; [reflexivity|]); (split; [reflexivity|]);
    exact Hpos.
Qed.

Lemma bus_cb_clock_ahead_witness :
  exists self' calls,
    bus_cb (Scenario.engine (Scenario.ms 2050) GST_STATE_CHANGE_ASYNC true None)
      Scenario.to_playing Scenario.applied = Ret true self' calls /\
    filter is_seek calls =
      [ElementSeekSimple GST_FORMAT_TIME seek_flags (Scenario.ms 200)].
Proof.
  destruct (bus_cb_clock_ahead
              (Scenario.engine (Scenario.ms 2050) GST_STATE_CHANGE_ASYNC true
                 None)
              Scenario.applied Scenario.to_playing _ Scenario.descriptor _
              ltac:(by_eval) eq_refl eq_refl eq_refl
              ltac:(by_eval) ltac:(by_eval))
    as (_ & s & c & E & Hseek & Hpos).
  exists s, c. split; [exact E|].
  rewrite Hseek. rewrite Hpos by by_eval. reflexivity.
Defined.

(** X18. A client whose clock is behind the base time by at most the
    tolerance does seek: the wrapped drift is huge, and adding the tolerance
    wraps once more, so the seek position comes out as the tolerance minus
    the lag, a position below 50 ms. *)
Theorem bus_cb_small_lag env self m p i k :
  transition1_fires self m = true ->
  pipeline self = Some p -> info self = Some i -> clock self = Some k ->
  0 <= clock_time env < base_time i -> base_time i < 2 ^ 64 ->
  base_time i - clock_time env <= DEFAULT_SEEK_TOLERANCE ->
  seek_position env i
    = DEFAULT_SEEK_TOLERANCE - (base_time i - clock_time env) /\
  0 <= seek_position env i < DEFAULT_SEEK_TOLERANCE /\
  exists self' calls,
    bus_cb env m self = Ret true self' calls /\
    filter is_seek calls =
      [ElementSeekSimple GST_FORMAT_TIME seek_flags
         (DEFAULT_SEEK_TOLERANCE - (base_time i - clock_time env))].
Proof.
  intros Hf Hp Hi Hk Hnow Hbase Hlag.
  pose proof (drift_behind env i Hnow Hbase) as Hd.
  assert (Hpos : seek_position env i
                 = DEFAULT_SEEK_TOLERANCE - (base_time i - clock_time env)).
  { unfold seek_position, add64. rewrite Hd. rewrite tolerance_value in *.
    unfold wrap64. symmetry. apply Z.mod_unique with (q := 1); lia. }
  split; [exact Hpos|].
  split; [rewrite Hpos; rewrite tolerance_value in *; lia|].
  rewrite (bus_cb_transition1 env self m p i k Hf Hp Hi Hk).
  assert (E : (drift env i >? DEFAULT_SEEK_TOLERANCE) = true).
  { rewrite Z.gtb_ltb. apply Z.ltb_lt. rewrite Hd.
    rewrite tolerance_value in *. lia. }
  rewrite E.
  assert (Harg : seek_argument env i
                 = DEFAULT_SEEK_TOLERANCE - (base_time i - clock_time env)).
  { unfold seek_argument. rewrite Hpos. apply to_gint64_low.
    rewrite tolerance_value in *. lia. }
  rewrite <- Harg.
  destruct (seek_simple_return env (seek_position env i));
    eexists; eexists; split; reflexivity.
Qed.

Lemma bus_cb_small_lag_witness :
  exists self' calls,
    bus_cb (Scenario.engine (Scenario.ms 1880) GST_STATE_CHANGE_ASYNC true None)
      Scenario.to_playing Scenario.applied = Ret true self' calls /\
    filter is_seek calls
      = [ElementSeekSimple GST_FORMAT_TIME seek_flags (Scenario.ms 30)].
Proof.
  destruct (bus_cb_small_lag
              (Scenario.engine (Scenario.ms 1880) GST_STATE_CHANGE_ASYNC true
                 None)
              Scenario.applied Scenario.to_playing _ Scenario.descriptor _
              ltac:(by_eval) eq_refl eq_refl eq_refl
              ltac:(by_eval) ltac:(by_eval) ltac:(by_eval))
    as (_ & _ & s & c & E & Hseek).
  exists s, c. split; [exact E | exact Hseek].
Defined.

(** ** A whole seek, from construction to the corrected base time *)

Lemma seek_session_from c p d e1 e2 e3 e4 src src' pd pos :
  info c = None -> pipeline c = Some p -> synchronised c = false ->
  wait_for_sync_return e2 = true ->
  set_state_return e2 GST_STATE_PAUSED <> GST_STATE_CHANGE_FAILURE ->
  set_state_return e2 GST_STATE_PAUSED <> GST_STATE_CHANGE_NO_PREROLL ->
  drift e3 d > DEFAULT_SEEK_TOLERANCE ->
  seek_simple_return e3 (seek_position e3 d) = true ->
  query_position_return e4 = Some pos ->
  exists self' calls p',
    session
      [SyncInfo e1 d;
       BusMessage e2 (clock_synchronised_message src);
       BusMessage e3
         (MsgStateChanged (Some (p_id p)) GST_STATE_PAUSED GST_STATE_PLAYING pd);
       BusMessage e4 (MsgAsyncDone src')] c = Ret tt self' calls /\
    filter is_seek calls
      = [ElementSeekSimple GST_FORMAT_TIME seek_flags (seek_argument e3 d)] /\
    filter is_set_base_time calls
      = [ElementSetBaseTime (add64 (base_time d) pos)] /\
    seek_state self' = DONE_SEEK /\
    pipeline self' = Some p' /\
    p_base_time p' = add64 (base_time d) pos /\
    p_start_time p' = GST_CLOCK_TIME_NONE /\
    p_uri p' = Some (uri d) /\
    p_latency p' = latency d.
Proof.
  intros Hci Hcp Hcs Hw Hnf Hnl Hd Hseek Hq.
  assert (Hcls : classified e2 (set_state_return e2 GST_STATE_PAUSED)
                 = NEED_SEEK).
  { destruct (set_state_return e2 GST_STATE_PAUSED); simpl;
      try reflexivity; exfalso; auto. }
  assert (Hgt : (drift e3 d >? DEFAULT_SEEK_TOLERANCE) = true).
  { rewrite Z.gtb_ltb. apply Z.ltb_lt. lia. }
  (* the first descriptor *)
  pose proof (update_sync_info_first_runs e1 d c p Hci Hcp) as E1.
  set (s1 := set_pipeline (Some (subscribed p))
               (set_clock (Some (clock_for d)) (set_info (Some d) c))) in *.
  (* the clock reports synchronisation *)
  pose proof (bus_cb_clock_report e2 s1 src
                (Some ("gst-netclock-statistics"%string, Some true))
                (subscribed p) d (clock_for d)
                Hcs eq_refl eq_refl eq_refl eq_refl) as E2.
  rewrite Hw, Hcls in E2.
  set (s2 := set_seek_state NEED_SEEK
               (set_pipeline (Some (configured d (subscribed p)))
                  (set_synchronised true s1))) in *.
  (* PAUSED to PLAYING *)
  pose proof (bus_cb_transition1 e3 s2 _ (configured d (subscribed p)) d
                (clock_for d)
                (transition1_fires_playing s2 (configured d (subscribed p)) pd
                   eq_refl eq_refl)
                eq_refl eq_refl eq_refl) as E3.
  rewrite Hgt, Hseek in E3.
  (* async-done *)
  pose proof (bus_cb_async_done e4 (set_seek_state IN_SEEK s2) src'
                (configured d (subscribed p)) d eq_refl eq_refl eq_refl) as E4.
  rewrite Hq in E4.
  eexists. eexists.
  exists (rebased (add64 (base_time d) pos) (configured d (subscribed p))).
  split.
  { cbn [session]. unfold sync_info_notify, clock_synchronised_message.
    unfold bind. unfold call at 1. rewrite E1.
    change (p_id p) with (p_id (configured d (subscribed p))).
    rewrite E2, E3, E4. reflexivity. }
  unfold calls_clock_synchronised, calls_update_pipeline.
  destruct (set_state_return e2 GST_STATE_PAUSED);
    repeat split; reflexivity.
Qed.

(** X19. From a new client to a synchronised pipeline: construction,
    start, the first descriptor, the clock's report of synchronisation, the
    pipeline's PAUSED-to-PLAYING message with a drift above the tolerance
    and the seek accepted, then async-done with the position [pos].
    Whatever the descriptor and the pipeline are, the whole run makes
    exactly one seek, whose position is [drift + tolerance] computed on 64
    bits and passed as a [gint64] (the plain sum when that is below [2^63]),
    sets the base time exactly once, to [base_time + pos], with the start
    time cleared, and ends in DONE_SEEK. *)
Theorem seek_session addr port p d e0 e1 e2 e3 e4 src src' pd pos :
  wait_for_sync_return e2 = true ->
  set_state_return e2 GST_STATE_PAUSED <> GST_STATE_CHANGE_FAILURE ->
  set_state_return e2 GST_STATE_PAUSED <> GST_STATE_CHANGE_NO_PREROLL ->
  drift e3 d > DEFAULT_SEEK_TOLERANCE ->
  seek_simple_return e3 (seek_position e3 d) = true ->
  query_position_return e4 = Some pos ->
  exists self' calls p',
    bind (gst_sync_client_start e0)
      (fun _ =>
         session
           [SyncInfo e1 d;
            BusMessage e2 (clock_synchronised_message src);
            BusMessage e3
              (MsgStateChanged (Some (p_id p)) GST_STATE_PAUSED
                 GST_STATE_PLAYING pd);
            BusMessage e4 (MsgAsyncDone src')])
      (gst_sync_client_new addr port (Some p)) = Ret tt self' calls /\
    filter is_seek calls
      = [ElementSeekSimple GST_FORMAT_TIME seek_flags (seek_argument e3 d)] /\
    (drift e3 d + DEFAULT_SEEK_TOLERANCE < 2 ^ 63 ->
     seek_argument e3 d = drift e3 d + DEFAULT_SEEK_TOLERANCE) /\
    filter is_set_base_time calls
      = [ElementSetBaseTime (add64 (base_time d) pos)] /\
    seek_state self' = DONE_SEEK /\
    pipeline self' = Some p' /\
    p_base_time p' = add64 (base_time d) pos /\
    p_start_time p' = GST_CLOCK_TIME_NONE /\
    p_uri p' = Some (uri d) /\
    p_latency p' = latency d.
Proof.
  intros Hw Hnf Hnl Hd Hseek Hq.
  set (c := gst_sync_client_new addr port (Some p)).
  assert (Hc : info c = None /\ pipeline c = Some p
               /\ synchronised c = false).
  { unfold c, gst_sync_client_new.
    destruct (control_port_valid port); repeat split; reflexivity. }
  destruct Hc as (Hci & Hcp & Hcs).
  assert (Estart : gst_sync_client_start e0 c =
            Ret (control_start_return e0)
              (set_client (Some (control_client_for c)) c)
              [ObjectNew (control_addr c) (control_port c);
               SignalConnect H_client "notify::sync-info" Cb_sync_info_notify;
               SignalEmitByName H_client "start"]).
  { destruct c; reflexivity. }
  destruct (seek_session_from (set_client (Some (control_client_for c)) c)
              p d e1 e2 e3 e4 src src' pd pos
              Hci Hcp Hcs Hw Hnf Hnl Hd Hseek Hq)
    as (s & calls & p' & Erun & Hk & Hb & Hrest).
  exists s. eexists. exists p'.
  split; [unfold bind at 1; rewrite Estart, Erun; reflexivity|].
  split; [exact Hk|].
  split; [apply seek_argument_exact|].
  split; [exact Hb | exact Hrest].
Qed.

Lemma seek_session_witness :
  exists self' calls p',
    bind (gst_sync_client_start Scenario.quiet)
      (fun _ =>
         session
           [SyncInfo Scenario.quiet Scenario.descriptor;
            BusMessage Scenario.quiet (clock_synchronised_message None);
            BusMessage
              (Scenario.engine (Scenario.ms 2050) GST_STATE_CHANGE_ASYNC true
                 None)
              Scenario.to_playing;
            BusMessage
              (Scenario.engine 0 GST_STATE_CHANGE_ASYNC true
                 (Some (Scenario.ms 205)))
              (MsgAsyncDone (Some 7%N))])
      Scenario.fresh = Ret tt self' calls /\
    filter is_seek calls
      = [ElementSeekSimple GST_FORMAT_TIME seek_flags (Scenario.ms 200)] /\
    seek_state self' = DONE_SEEK /\
    pipeline self' = Some p' /\
    p_base_time p' = add64 (base_time Scenario.descriptor) (Scenario.ms 205).
Proof.
  destruct (seek_session (Some "10.0.0.2"%string) 3695 Scenario.pipe
              Scenario.descriptor Scenario.quiet Scenario.quiet Scenario.quiet
              (Scenario.engine (Scenario.ms 2050) GST_STATE_CHANGE_ASYNC true
                 None)
              (Scenario.engine 0 GST_STATE_CHANGE_ASYNC true
                 (Some (Scenario.ms 205)))
              None (Some 7%N) GST_STATE_VOID_PENDING (Scenario.ms 205)
              eq_refl ltac:(by_eval) ltac:(by_eval) ltac:(by_eval)
              eq_refl eq_refl)
    as (s & c & p' & E & Hk & Harg & _ & Hd & Hp & Hb & _).
  exists s, c, p'. split; [exact E|].
  split; [rewrite Hk, Harg by by_eval; reflexivity|].
  repeat split; assumption.
Defined.

(** ** A changed descriptor before the clock is synchronised *)

Lemma update_sync_info_changed_runs env d self p i :
  pipeline self = Some p -> info self = Some i ->
  uri i <> uri d \/ base_time i <> base_time d ->
  update_sync_info env d self =
    Ret tt
      (set_seek_state (classified env (set_state_return env GST_STATE_PAUSED))
         (set_pipeline (Some (configured d p)) (set_info (Some d) self)))
      (MutexLock :: ElementSetState GST_STATE_NULL :: SyncServerInfoFree i
         :: calls_update_pipeline env d ++ [MutexUnlock]).
Proof.
  intros Hp Hi Hdiff.
  assert (Hc : negb (String.eqb (uri i) (uri d))
               || negb (base_time i =? base_time d) = true).
  { destruct Hdiff as [Hu | Hb].
    - apply String.eqb_neq in Hu. rewrite Hu. reflexivity.
    - apply Z.eqb_neq in Hb. rewrite Hb. apply orb_true_r. }
  destruct self as [ca cp inf pl ck cl sy ss]. simpl in Hp, Hi. subst.
  unfold update_sync_info, update_pipeline, calls_update_pipeline, bind.
  simpl. rewrite Hc. simpl.
  destruct (set_state_return env GST_STATE_PAUSED); reflexivity.
Qed.

Lemma count_playing_update_pipeline env d :
  count (is_set_state GST_STATE_PLAYING) (calls_update_pipeline env d) = 1%nat.
Proof.
  unfold calls_update_pipeline.
  destruct (set_state_return env GST_STATE_PAUSED); reflexivity.
Qed.

(** X20. Only the first descriptor waits for the clock.  A descriptor with
    another locator or base time that arrives before the clock has reported
    synchronisation is applied at once (PAUSED and PLAYING are requested
    with the flag still down), and when the report then comes the same
    descriptor is applied a second time. *)
Theorem changed_descriptor_not_gated env env' self p i k d src st :
  pipeline self = Some p -> info self = Some i -> clock self = Some k ->
  synchronised self = false ->
  uri i <> uri d \/ base_time i <> base_time d ->
  reports_synchronised st = true -> wait_for_sync_return env' = true ->
  exists self1 calls1 self2,
    update_sync_info env d self = Ret tt self1 calls1 /\
    count (is_set_state GST_STATE_PLAYING) calls1 = 1%nat /\
    synchronised self1 = false /\
    bus_cb env' (MsgElement src st) self1
      = Ret true self2 (calls_clock_synchronised env' d) /\
    count (is_set_state GST_STATE_PLAYING) (calls_clock_synchronised env' d)
      = 1%nat /\
    info self2 = Some d.
Proof.
  intros Hp Hi Hk Hs Hdiff Hr Hw.
  rewrite (update_sync_info_changed_runs env d self p i Hp Hi Hdiff).
  set (s1 := set_seek_state
               (classified env (set_state_return env GST_STATE_PAUSED))
               (set_pipeline (Some (configured d p))
                  (set_info (Some d) self))).
  pose proof (bus_cb_clock_report env' s1 src st (configured d p) d k
                Hs eq_refl eq_refl Hk Hr) as E2.
  rewrite Hw in E2.
  eexists. eexists. eexists.
  split; [reflexivity|].
  split.
  { change (MutexLock :: ElementSetState GST_STATE_NULL
              :: SyncServerInfoFree i
              :: calls_update_pipeline env d ++ [MutexUnlock])
      with ([MutexLock; ElementSetState GST_STATE_NULL; SyncServerInfoFree i]
            ++ calls_update_pipeline env d ++ [MutexUnlock]).
    rewrite !count_app, count_playing_update_pipeline. reflexivity. }
  split; [exact Hs|].
  split; [exact E2|].
  split; [|reflexivity].
  unfold calls_clock_synchronised.
  rewrite !count_app, count_playing_update_pipeline. reflexivity.
Qed.

Lemma changed_descriptor_not_gated_witness :
  exists self1 calls1,
    update_sync_info Scenario.quiet Scenario.far_descriptor Scenario.attached
      = Ret tt self1 calls1 /\
    count (is_set_state GST_STATE_PLAYING) calls1 = 1%nat /\
    synchronised self1 = false.
Proof.
  assert (Hne : uri Scenario.descriptor <> uri Scenario.far_descriptor \/
                base_time Scenario.descriptor
                <> base_time Scenario.far_descriptor).
  { right. by_eval. }
  destruct (changed_descriptor_not_gated Scenario.quiet Scenario.quiet
              Scenario.attached _ Scenario.descriptor _
              Scenario.far_descriptor None
              (Some ("gst-netclock-statistics"%string, Some true))
              eq_refl eq_refl eq_refl eq_refl Hne eq_refl eq_refl)
    as (s1 & c1 & s2 & E & Hn & Hs & _).
  exists s1, c1. repeat split; assumption.
Defined.

(** ** The bus watch *)

(** X21. On a client that holds its pipeline, clock and descriptor,
    [bus_cb] handles every message, of any kind and from any source and
    whatever the pipeline and the clock answer, and returns TRUE, so the bus
    watch is never removed; the stored descriptor, the clock and the identity
    of the pipeline are as before, and [info_lock] is free again whenever
    it was taken. *)
Theorem bus_cb_keeps_watch env m self :
  attached self = true ->
  exists self' calls,
    bus_cb env m self = Ret true self' calls /\
    attached self' = true /\
    info self' = info self /\
    clock self' = clock self /\
    option_map p_id (pipeline self') = option_map p_id (pipeline self) /\
    lock_ok false calls = true.
Proof.
  intros Ha.
  destruct (bus_cb_step env m self Ha)
    as (s & c & E & (Ha' & Hi & Hk & _ & _ & _ & Hid & _) & Hl & _).
  exists s, c. repeat split; assumption.
Qed.

Lemma bus_cb_keeps_watch_witness :
  exists self' calls,
    bus_cb (Scenario.engine (Scenario.ms 2050) GST_STATE_CHANGE_ASYNC false None)
      Scenario.to_playing Scenario.applied = Ret true self' calls /\
    info self' = info Scenario.applied /\
    lock_ok false calls = true.
Proof.
  destruct (bus_cb_keeps_watch
              (Scenario.engine (Scenario.ms 2050) GST_STATE_CHANGE_ASYNC false
                 None)
              Scenario.to_playing Scenario.applied eq_refl)
    as (s & c & E & _ & Hi & _ & _ & Hl).
  exists s, c. repeat split; assumption.
Defined.
